(** * Postmark MCP server: request normalisation and result envelopes

    A shallow embedding of the tool handlers of [postmark-mcp-server.js] and
    of its later revisions, together with the parts of the JavaScript
    run-time they rely on (string truthiness, [String.prototype.trim],
    binary64 arithmetic, [Math.min], [Number.prototype.toFixed]) and of the
    [zod] input schemas the tools are registered with.

    The repository holds three revisions of the server:
    - [Legacy]: the tools of [postmark-mcp-server.js], which has no
      tracking fields and no tags, and whose [getDeliveryStats] reports an
      open rate and a bounce rate over the counts of [deliverystats];
    - [Tracking]: the twelve tools of the revision with the
      [trackOpens]/[trackLinks] literals, tags, [templateAlias] and the
      capped delivery rates;
    - [Guarded]: the five tools of the revision whose sending handlers wrap
      their body in [try]/[catch].
    The tools that read the same in every revision are in [Shared]. What
    the handlers write to [console.error] is left out: a handler is the
    requests it issues and the way its promise settles. *)

From stdpp Require Import gmap strings list fin_maps.
From Stdlib Require Import ZArith Lia Floats.SpecFloat DecimalString.

#[local] Set Warnings "-register-all".
#[local] Open Scope Z_scope.

(** ** JavaScript values and built-ins *)

Module Js.

(** *** Strings

    A string is a sequence of code units; the model keeps the code units
    below 256, which is where every literal of the source lives. *)

(** The white space and line terminators of ECMAScript in that range:
    TAB, LF, VT, FF, CR, SPACE and NBSP. *)
Definition isWhiteSpace (c : Ascii.ascii) : bool :=
  let n := Ascii.N_of_ascii c in
  ((9 <=? n) && (n <=? 13) || (n =? 32) || (n =? 160))%N.

Fixpoint trimStart (s : string) : string :=
  match s with
  | EmptyString => EmptyString
  | String c s' => if isWhiteSpace c then trimStart s' else s
  end.

Fixpoint trimEnd (s : string) : string :=
  match s with
  | EmptyString => EmptyString
  | String c s' =>
      match trimEnd s' with
      | EmptyString => if isWhiteSpace c then EmptyString else String c EmptyString
      | t => String c t
      end
  end.

(** [s.trim()] *)
Definition trim (s : string) : string := trimEnd (trimStart s).

(** [ToBoolean] on a string: only the empty string is falsy. *)
Definition truthy_string (s : string) : bool :=
  match s with EmptyString => false | String _ _ => true end.

(** [s !== ""] *)
Definition nonempty (s : string) : bool := truthy_string s.

(** [a || b] where [a] is a string or [undefined] and [b] a string. *)
Definition or_string (a : option string) (b : string) : string :=
  match a with
  | Some s => if truthy_string s then s else b
  | None => b
  end.

(** [v = d] in a parameter list: the default is taken for [undefined]
    only. *)
Definition or_default {A} (v : option A) (d : A) : A :=
  match v with
  | Some x => x
  | None => d
  end.

(** [v] when it is a truthy string, as the test of [if (v)] and the left
    operand of [v || d] see it. *)
Definition when_truthy (v : option string) : option string :=
  match v with
  | Some s => if truthy_string s then Some s else None
  | None => None
  end.

(** [encodeURIComponent]: the unreserved characters stay, every other code
    unit is written as the escaped bytes of its UTF-8 encoding. The
    [URIError] of a lone surrogate cannot arise: no code unit of the model
    is one. *)
Definition unreserved (c : Ascii.ascii) : bool :=
  let n := Ascii.N_of_ascii c in
  ((48 <=? n) && (n <=? 57) || (65 <=? n) && (n <=? 90) || (97 <=? n) && (n <=? 122)
   || (n =? 45) || (n =? 95) || (n =? 46) || (n =? 33) || (n =? 126)
   || (n =? 42) || (n =? 39) || (n =? 40) || (n =? 41))%N.

Definition hex_digit (n : N) : Ascii.ascii :=
  Ascii.ascii_of_N (if (n <? 10)%N then 48 + n else 55 + n)%N.

Definition escaped (n : N) : string :=
  String (Ascii.ascii_of_N 37)
    (String (hex_digit (n / 16)%N) (String (hex_digit (n mod 16)%N) EmptyString)).

Definition encode_unit (c : Ascii.ascii) : string :=
  let n := Ascii.N_of_ascii c in
  if unreserved c then String c EmptyString
  else if (n <? 128)%N then escaped n
  else escaped (192 + n / 64)%N +:+ escaped (128 + n mod 64)%N.

Fixpoint encodeURIComponent (s : string) : string :=
  match s with
  | EmptyString => EmptyString
  | String c s' => encode_unit c +:+ encodeURIComponent s'
  end.

(** *** Numbers: IEEE 754 binary64 *)

Definition prec : Z := 53.
Definition emax : Z := 1024.

Abbreviation number := spec_float.

Definition of_Z (z : Z) : number := binary_normalize prec emax z 0 false.

Definition add : number -> number -> number := SFadd prec emax.
Definition div : number -> number -> number := SFdiv prec emax.
Definition mul : number -> number -> number := SFmul prec emax.

(** [a > b] *)
Definition gt (a b : number) : bool := SFltb b a.


(** [Number.isFinite] *)
Definition isFinite (x : number) : bool :=
  match x with
  | S754_zero _ | S754_finite _ _ _ => true
  | S754_infinity _ | S754_nan => false
  end.

Definition isNaN (x : number) : bool :=
  match x with S754_nan => true | _ => false end.

(** [ToBoolean] on a number: [+0], [-0] and [NaN] are falsy. *)
Definition truthy_number (x : number) : bool :=
  match x with
  | S754_zero _ | S754_nan => false
  | S754_infinity _ | S754_finite _ _ _ => true
  end.

(** [v] when it is a truthy number. *)
Definition when_truthy_number (v : option number) : option number :=
  match v with
  | Some x => if truthy_number x then Some x else None
  | None => None
  end.

(** [Math.min(x, y)]: [NaN] when either argument is, and [-0] below [+0]. *)
Definition Math_min (x y : number) : number :=
  match SFcompare x y with
  | None => S754_nan
  | Some Lt => x
  | Some Gt => y
  | Some Eq => match x with S754_zero true => x | _ => y end
  end.

(** *** [Number.prototype.toFixed] *)

(** The integer [n] for which [n / 10^f - m * 2^e] is closest to zero,
    the larger one of two. *)
Definition scaled_round (f : nat) (m : positive) (e : Z) : Z :=
  let p := 10 ^ Z.of_nat f in
  if 0 <=? e then Z.pos m * p * 2 ^ e
  else (2 * Z.pos m * p + 2 ^ (- e)) / 2 ^ (- e + 1).

(** [10^21 <= m * 2^e] *)
Definition at_least_1e21 (m : positive) (e : Z) : bool :=
  if 0 <=? e then 10 ^ 21 <=? Z.pos m * 2 ^ e
  else 10 ^ 21 * 2 ^ (- e) <=? Z.pos m.

Definition decimal (n : Z) : string :=
  NilZero.string_of_uint (N.to_uint (Z.to_N n)).

Fixpoint zeros (k : nat) : string :=
  match k with O => EmptyString | S k' => "0" +:+ zeros k' end.

(** The digits of [n] with a point before the last [f] of them, padded
    with zeros on the left up to [f + 1] digits. *)
Definition fixed_digits (f : nat) (n : Z) : string :=
  let m := decimal n in
  match f with
  | O => m
  | S _ =>
      let m := zeros (S f - String.length m) +:+ m in
      let k := String.length m in
      String.substring 0 (k - f) m +:+ "." +:+ String.substring (k - f) f m
  end.

(** *** Values

    What [JSON.parse] can produce, and what the handlers put into the
    objects they hand to the provider client. [undefined] is the absence
    of a value: a property that is [undefined] is a missing key. Objects
    are plain: their keys shadow no method of [Object.prototype], so that
    [toString] and [valueOf] are the inherited ones. *)
Inductive jsval :=
  | JNull
  | JBool (b : bool)
  | JNum (x : number)
  | JStr (s : string)
  | JArr (l : list jsval)
  | JObj (o : gmap string jsval).

(** The conversions of the run-time that the handlers reach and whose
    algorithms are not part of the repository: [Number::toString] (the
    shortest digits that read back as the number), [StringToNumber] (the
    numeric value of a string) and [JSON.stringify]. *)
Class Builtins := {
  NumberToString : number -> string;
  StringToNumber : string -> number;
  JSON_stringify : option jsval -> string
}.

Section Rendering.
Context `{rt : Builtins}.

(** [x.toFixed(f)] *)
Definition toFixed (f : nat) (x : number) : string :=
  match x with
  | S754_nan => "NaN"
  | S754_infinity false => "Infinity"
  | S754_infinity true => "-Infinity"
  | S754_zero _ => fixed_digits f 0
  | S754_finite s m e =>
      (if s then "-" else "") +:+
      (if at_least_1e21 m e then NumberToString (S754_finite false m e)
       else fixed_digits f (scaled_round f m e))
  end.

(** [ToString], as a template literal applies it to a value. *)
Fixpoint ToString (v : jsval) : string :=
  match v with
  | JNull => "null"
  | JBool true => "true"
  | JBool false => "false"
  | JNum x => NumberToString x
  | JStr s => s
  | JArr l =>
      String.concat ","
        (map (fun x => match x with JNull => EmptyString | _ => ToString x end) l)
  | JObj _ => "[object Object]"
  end.

Definition interpolate (v : option jsval) : string :=
  match v with
  | None => "undefined"
  | Some v => ToString v
  end.

(** [ToNumber], as the arithmetic and relational operators apply it. *)
Definition ToNumber (v : jsval) : number :=
  match v with
  | JNull => S754_zero false
  | JBool true => of_Z 1
  | JBool false => S754_zero false
  | JNum x => x
  | JStr s => StringToNumber s
  | JArr _ => StringToNumber (ToString v)
  | JObj _ => S754_nan
  end.

(** [a / b] *)
Definition divide (a b : jsval) : number := div (ToNumber a) (ToNumber b).

(** [a > b] for a number [b] *)
Definition greater (a : jsval) (b : number) : bool := gt (ToNumber a) b.

(** [ToPrimitive]: an array or an object becomes its string. *)
Definition ToPrimitive (v : jsval) : jsval :=
  match v with
  | JArr _ | JObj _ => JStr (ToString v)
  | _ => v
  end.

(** [ToNumber] of a primitive that may be [undefined], which is [NaN]. *)
Definition numeric (v : option jsval) : number :=
  match v with
  | Some v => ToNumber v
  | None => S754_nan
  end.

(** [a + b] for operands that may be [undefined]: the concatenation of
    their strings when one of the primitives is a string, the sum of their
    numbers otherwise. *)
Definition plus (a b : option jsval) : jsval :=
  let a := ToPrimitive <$> a in
  let b := ToPrimitive <$> b in
  match a, b with
  | Some (JStr _), _ | _, Some (JStr _) => JStr (interpolate a +:+ interpolate b)
  | _, _ => JNum (add (numeric a) (numeric b))
  end.

End Rendering.

(** [ToBoolean] *)
Definition truthy (v : jsval) : bool :=
  match v with
  | JNull => false
  | JBool b => b
  | JNum x => truthy_number x
  | JStr s => truthy_string s
  | JArr _ | JObj _ => true
  end.

(** [v || 0] for a value that may be [undefined] *)
Definition or_zero (v : option jsval) : jsval :=
  match v with
  | Some x => if truthy x then x else JNum (S754_zero false)
  | None => JNum (S754_zero false)
  end.

(** [Number.isFinite(v)]: no conversion, a value that is not a number is
    not finite. *)
Definition Number_isFinite (v : jsval) : bool :=
  match v with
  | JNum x => isFinite x
  | _ => false
  end.

(** *** Errors

    A thrown value with its [name] and [message]; [message] may be
    [undefined]. *)
Record Error := { name : string; message : option string }.

(** [new Error(msg)] *)
Definition new_Error (msg : string) : Error :=
  {| name := "Error"; message := Some msg |}.

(** [Error.prototype.toString] *)
Definition Error_toString (e : Error) : string :=
  let msg := default EmptyString (message e) in
  if negb (truthy_string (name e)) then msg
  else if negb (truthy_string msg) then name e
  else name e +:+ ": " +:+ msg.

(** An object literal some of whose property values may be [undefined]:
    such a property is a missing key. *)
Definition object_literal (props : list (string * option jsval)) : gmap string jsval :=
  foldr (fun kv o => match kv.2 with Some v => <[kv.1 := v]> o | None => o end) ∅ props.

(** The line feed of a [\n] escape. *)
Definition newline : string := String (Ascii.ascii_of_N 10) EmptyString.

(** [new TypeError(...)], as reading a property of [null] throws it, with
    the message of V8. *)
Definition null_property (k : string) : Error :=
  {| name := "TypeError";
     message := Some ("Cannot read properties of null (reading '" +:+ k +:+ "')") |}.

(** [v.k] for a key [k] that no prototype defines: [undefined] unless
    [v] is an object that has the key, and a [TypeError] on [null]. *)
Definition prop (k : string) (v : jsval) : Error + option jsval :=
  match v with
  | JNull => inl (null_property k)
  | JObj o => inr (o !! k)
  | _ => inr None
  end.

End Js.

Export Js(jsval, JNull, JBool, JNum, JStr, JArr, JObj).

(** ** Input schemas

    The tools are registered with [zod] schemas. A schema is embedded as the
    function that parses the value found under a key. *)

Module z.

(** [Some v] is the value under the key, [None] a missing key
    ([undefined]); the result is the parsed value, or [None] when the value
    does not conform (a [ZodError]: the call is answered with an
    invalid-parameters error and the handler does not run). *)
Definition schema (A : Type) : Type := option jsval -> option A.

(** The format checks of [zod] that are regular expressions of the
    library: [z.string().email()]. *)
Class Formats := { isEmail : String.string -> bool }.

(** [z.string()] *)
Definition string : schema String.string :=
  fun v => match v with Some (JStr s) => Some s | _ => None end.

(** [z.string().email()] *)
Definition email `{fmt : Formats} : schema String.string :=
  fun v => s ← string v; if isEmail s then Some s else None.

(** [z.number()]: a number other than [NaN]. *)
Definition number : schema Js.number :=
  fun v =>
    match v with
    | Some (JNum x) => if Js.isNaN x then None else Some x
    | _ => None
    end.

(** [z.literal(true)] *)
Definition literal_bool (lit : bool) : schema bool :=
  fun v =>
    match v with
    | Some (JBool b) => if Bool.eqb b lit then Some b else None
    | _ => None
    end.

(** [z.literal("...")] *)
Definition literal_string (lit : String.string) : schema String.string :=
  fun v =>
    match v with
    | Some (JStr s) => if String.eqb s lit then Some s else None
    | _ => None
    end.

(** [s.optional()] *)
Definition optional {A} (s : schema A) : schema (option A) :=
  fun v => match v with None => Some None | Some _ => Some <$> s v end.

(** [z.object(shape)], with [shape] given as the parser of its keys; keys
    outside the shape are dropped. *)
Definition object {A} (shape : gmap String.string jsval -> option A) : schema A :=
  fun v => match v with Some (JObj o) => shape o | _ => None end.

(** [z.object({}).passthrough()]: any object, kept as it is. *)
Definition passthrough : schema (gmap String.string jsval) :=
  object Some.

(** [z.array(s)] *)
Definition array {A} (s : schema A) : schema (list A) :=
  fun v =>
    match v with
    | Some (JArr l) => mapM (fun x => s (Some x)) l
    | _ => None
    end.

(** [z.string().regex(/^\d{4}-\d{2}-\d{2}$/)] *)
Definition isDigit (c : Ascii.ascii) : bool :=
  let n := Ascii.N_of_ascii c in ((48 <=? n) && (n <=? 57))%N.

Definition isDash (c : Ascii.ascii) : bool := (Ascii.N_of_ascii c =? 45)%N.

Definition isDate (s : String.string) : bool :=
  match s with
  | String y1 (String y2 (String y3 (String y4 (String d1 (String m1 (String m2
      (String d2 (String a1 (String a2 EmptyString))))))))) =>
      isDigit y1 && isDigit y2 && isDigit y3 && isDigit y4 && isDash d1
      && isDigit m1 && isDigit m2 && isDash d2 && isDigit a1 && isDigit a2
  | _ => false
  end.

Definition date : schema String.string :=
  fun v => s ← string v; if isDate s then Some s else None.

End z.

(** ** The protocol envelope and the provider boundary *)

Module Mcp.

(** [{ type: "text", text }] *)
Record TextContent := { type : string; text : string }.

(** [{ content: [...] }] *)
Record ToolResult := { content : list TextContent }.

Definition text_content (t : string) : TextContent :=
  {| type := "text"; text := t |}.

(** A request to the provider: a method of the Postmark client with its
    argument, or the [fetch] of a URL with [method: "GET"] and these
    headers. *)
Inductive Request :=
  | sendEmail (payload : gmap string jsval)
  | sendEmailBatch (batch : list (gmap string jsval))
  | sendEmailWithTemplate (payload : gmap string jsval)
  | createTemplate (template : gmap string jsval)
  | editTemplate (templateId : Js.number) (fields : gmap string jsval)
  | getTemplates
  | getTemplate (templateId : Js.number)
  | getOutboundMessages (filter : gmap string jsval)
  | createDomain (domain : gmap string jsval)
  | verifyDomainDKIM (domainId : Js.number)
  | verifyDomainReturnPath (domainId : Js.number)
  | fetch (url : string) (headers : gmap string string).

(** The [Response] a [fetch] resolves to, as far as the handlers read it:
    [ok], [status], [statusText] and what [response.json()] settles
    with. *)
Record Response := {
  ok : bool;
  status : Js.number;
  statusText : string;
  json : Js.Error + jsval
}.

(** What a request resolves to: a value from the client, a [Response] from
    [fetch]. *)
Definition Reply (r : Request) : Type :=
  match r with
  | fetch _ _ => Response
  | _ => jsval
  end.

(** The provider: the reply to a request, or the error it fails with. *)
Definition Upstream : Type := forall r : Request, Js.Error + Reply r.

(** One run of a handler: the requests it issued, in order, and how its
    promise settled ([inl]: rejected with that error). *)
Record Run (A : Type) := mkRun { issued : list Request; outcome : Js.Error + A }.
Arguments mkRun {A} _ _.
Arguments issued {A} _.
Arguments outcome {A} _.

Definition Eff (A : Type) : Type := Upstream -> Run A.

Definition ret {A} (a : A) : Eff A := fun _ => mkRun [] (inr a).

Definition bind {A B} (m : Eff A) (k : A -> Eff B) : Eff B :=
  fun up =>
    match outcome (m up) with
    | inl e => mkRun (issued (m up)) (inl e)
    | inr a => mkRun (issued (m up) ++ issued (k a up)) (outcome (k a up))
    end.

#[export] Instance Eff_ret : MRet Eff := @ret.
#[export] Instance Eff_bind : MBind Eff := fun A B k m => bind m k.

(** [throw e] *)
Definition throw {A} (e : Js.Error) : Eff A := fun _ => mkRun [] (inl e).

(** A provider from its two sides: the Postmark client and the HTTP
    end point that [fetch] reaches. *)
Definition upstream (client : Request -> Js.Error + jsval)
    (http : string -> gmap string string -> Js.Error + Response) : Upstream :=
  fun r =>
    match r return Js.Error + Reply r with
    | fetch url headers => http url headers
    | _ => client r
    end.

(** [await client.method(arg)] and [await fetch(url, ...)] *)
Definition await (r : Request) : Eff (Reply r) := fun up => mkRun [r] (up r).

(** [await response.json()] *)
Definition parsed (response : Response) : Eff jsval :=
  fun _ => mkRun [] (json response).

(** [try { body } catch (error) { handler }] *)
Definition try_catch {A} (body : Eff A) (handler : Js.Error -> Eff A) : Eff A :=
  fun up =>
    match outcome (body up) with
    | inl e => mkRun (issued (body up) ++ issued (handler e up)) (outcome (handler e up))
    | inr a => body up
    end.

(** [v.k] inside a handler *)
Definition get (k : string) (v : jsval) : Eff (option jsval) :=
  match Js.prop k v with
  | inl e => throw e
  | inr x => ret x
  end.

(** [return { content: [{ type: "text", text }] }] *)
Definition reply (t : string) : Eff ToolResult :=
  ret {| content := [text_content t] |}.

(** A registered tool: [server.tool(name, shape, handler)]. *)
Record Tool := {
  Args : Type;
  inputSchema : gmap string jsval -> option Args;
  handler : Args -> Eff ToolResult
}.

(** How a call of a tool ends. *)
Inductive Outcome :=
  | InvalidParams
  | Fulfilled (r : ToolResult)
  | Rejected (e : Js.Error).

(** A call of a tool with the arguments of the request, as the SDK makes
    it: the arguments are parsed by the schema, and the handler runs on the
    parsed arguments. *)
Definition call (t : Tool) (args : gmap string jsval) (up : Upstream)
  : list Request * Outcome :=
  match inputSchema t args with
  | None => ([], InvalidParams)
  | Some a =>
      let r := handler t a up in
      (issued r, match outcome r with inl e => Rejected e | inr res => Fulfilled res end)
  end.

End Mcp.

Import (hints) Mcp.

(** ** Configuration and start-up *)

(** The three settings every handler closes over. *)
Class Config := {
  serverToken : string;
  defaultSender : string;
  defaultMessageStream : string
}.

Module Startup.

(** The state of the process while the module body runs: the tools
    registered so far and whether the server was connected to its
    transport. *)
Record Process := { tools : gmap string Mcp.Tool; connected : bool }.

Definition initial : Process := {| tools := ∅; connected := false |}.

(** A step of the module body: the state it leaves, and the error it
    throws, if any. An error thrown at the top level ends the process. *)
Definition Init (A : Type) : Type := Process -> Process * (Js.Error + A).

Definition ret {A} (a : A) : Init A := fun p => (p, inr a).

Definition bind {A B} (m : Init A) (k : A -> Init B) : Init B :=
  fun p =>
    match m p with
    | (p', inl e) => (p', inl e)
    | (p', inr a) => k a p'
    end.

#[export] Instance Init_ret : MRet Init := @ret.
#[export] Instance Init_bind : MBind Init := fun A B k m => bind m k.

Definition throw {A} (e : Js.Error) : Init A := fun p => (p, inl e).

(** [!v] for a variable of the environment *)
Definition unset (v : option string) : bool :=
  match v with
  | Some s => negb (Js.truthy_string s)
  | None => true
  end.

(** The head of the module: the three reads of [process.env] and the three
    checks that follow them. *)
Definition config (env : gmap string string) : Init Config :=
  let serverToken := env !! "POSTMARK_SERVER_TOKEN" in
  let defaultSender := env !! "DEFAULT_SENDER_EMAIL" in
  let defaultMessageStream := env !! "DEFAULT_MESSAGE_STREAM" in
  if unset serverToken then
    throw (Js.new_Error
      "POSTMARK_SERVER_TOKEN is not set. Please configure it in your .env file.")
  else if unset defaultSender then
    throw (Js.new_Error
      "DEFAULT_SENDER_EMAIL is not set. Please configure it in your .env file.")
  else if unset defaultMessageStream then
    throw (Js.new_Error
      "DEFAULT_MESSAGE_STREAM is not set. Please configure it in your .env file.")
  else
    ret {| serverToken := default EmptyString serverToken;
           defaultSender := default EmptyString defaultSender;
           defaultMessageStream := default EmptyString defaultMessageStream |}.

(** [server.tool(name, shape, handler)] *)
Definition tool (name : string) (t : Mcp.Tool) : Init unit :=
  fun p => ({| tools := <[name := t]> (tools p); connected := connected p |}, inr tt).

(** [server.connect(transport)] *)
Definition connect : Init unit :=
  fun p => ({| tools := tools p; connected := true |}, inr tt).

(** The module body of every revision: the configuration, then the
    registrations, then the connection. *)
Definition main (registrations : Config -> list (string * Mcp.Tool))
    (env : gmap string string) : Init unit :=
  cfg ← config env;
  foldr (fun nt k => tool nt.1 nt.2 ;; k) connect (registrations cfg).

(** Running the module body from the initial state. *)
Definition run (registrations : Config -> list (string * Mcp.Tool))
    (env : gmap string string) : Process * (Js.Error + unit) :=
  main registrations env initial.

End Startup.

(** ** The tools whose text is the same in every revision that has them *)

Module Shared.

Module createTemplate.

Record args := {
  name : string;
  subject : string;
  htmlBody : string;
  textBody : option string;
  alias : option string
}.

Section Tool.
Context `{rt : Js.Builtins}.

Definition inputSchema (o : gmap string jsval) : option args :=
  name ← z.string (o !! "name");
  subject ← z.string (o !! "subject");
  htmlBody ← z.string (o !! "htmlBody");
  textBody ← z.optional z.string (o !! "textBody");
  alias ← z.optional z.string (o !! "alias");
  Some {| name := name; subject := subject; htmlBody := htmlBody;
          textBody := textBody; alias := alias |}.

Definition template (a : args) : gmap string jsval :=
  Js.object_literal
    [ ("Name", Some (JStr (name a)));
      ("Subject", Some (JStr (subject a)));
      ("HtmlBody", Some (JStr (htmlBody a)));
      ("TextBody", Some (JStr (Js.or_string (textBody a) EmptyString)));
      ("Alias", JStr <$> alias a) ].

Definition handler (a : args) : Mcp.Eff Mcp.ToolResult :=
  result ← Mcp.await (Mcp.createTemplate (template a));
  id ← Mcp.get "TemplateId" result;
  Mcp.reply ("Template created! ID: " +:+ Js.interpolate id).

Definition tool : Mcp.Tool :=
  {| Mcp.Args := args; Mcp.inputSchema := inputSchema; Mcp.handler := handler |}.

End Tool.
End createTemplate.

Module updateTemplate.

Record args := {
  templateId : Js.number;
  name : option string;
  subject : option string;
  htmlBody : option string;
  textBody : option string;
  alias : option string
}.

Section Tool.
Context `{rt : Js.Builtins}.

Definition inputSchema (o : gmap string jsval) : option args :=
  templateId ← z.number (o !! "templateId");
  name ← z.optional z.string (o !! "name");
  subject ← z.optional z.string (o !! "subject");
  htmlBody ← z.optional z.string (o !! "htmlBody");
  textBody ← z.optional z.string (o !! "textBody");
  alias ← z.optional z.string (o !! "alias");
  Some {| templateId := templateId; name := name; subject := subject;
          htmlBody := htmlBody; textBody := textBody; alias := alias |}.

(** [...fields]: the parsed properties other than [templateId]. *)
Definition fields (a : args) : gmap string jsval :=
  Js.object_literal
    [ ("name", JStr <$> name a);
      ("subject", JStr <$> subject a);
      ("htmlBody", JStr <$> htmlBody a);
      ("textBody", JStr <$> textBody a);
      ("alias", JStr <$> alias a) ].

Definition handler (a : args) : Mcp.Eff Mcp.ToolResult :=
  result ← Mcp.await (Mcp.editTemplate (templateId a) (fields a));
  id ← Mcp.get "TemplateId" result;
  Mcp.reply ("Template updated! ID: " +:+ Js.interpolate id).

Definition tool : Mcp.Tool :=
  {| Mcp.Args := args; Mcp.inputSchema := inputSchema; Mcp.handler := handler |}.

End Tool.
End updateTemplate.

Module listTemplates.
Section Tool.
Context `{rt : Js.Builtins}.

Definition inputSchema (o : gmap string jsval) : option unit := Some tt.

Definition handler (a : unit) : Mcp.Eff Mcp.ToolResult :=
  result ← Mcp.await Mcp.getTemplates;
  templates ← Mcp.get "Templates" result;
  Mcp.reply (Js.JSON_stringify templates).

Definition tool : Mcp.Tool :=
  {| Mcp.Args := unit; Mcp.inputSchema := inputSchema; Mcp.handler := handler |}.

End Tool.
End listTemplates.

Module getTemplate.

Record args := { templateId : Js.number }.

Section Tool.
Context `{rt : Js.Builtins}.

Definition inputSchema (o : gmap string jsval) : option args :=
  templateId ← z.number (o !! "templateId");
  Some {| templateId := templateId |}.

Definition handler (a : args) : Mcp.Eff Mcp.ToolResult :=
  result ← Mcp.await (Mcp.getTemplate (templateId a));
  Mcp.reply (Js.JSON_stringify (Some result)).

Definition tool : Mcp.Tool :=
  {| Mcp.Args := args; Mcp.inputSchema := inputSchema; Mcp.handler := handler |}.

End Tool.
End getTemplate.

Module getOutboundMessages.

Record args := { count : option Js.number; offset : option Js.number }.

Section Tool.
Context `{rt : Js.Builtins}.

Definition inputSchema (o : gmap string jsval) : option args :=
  count ← z.optional z.number (o !! "count");
  offset ← z.optional z.number (o !! "offset");
  Some {| count := count; offset := offset |}.

(** [{ count, offset }] after the defaults [count = 10, offset = 0] of
    the parameter list. *)
Definition filter (a : args) : gmap string jsval :=
  let count := Js.or_default (count a) (Js.of_Z 10) in
  let offset := Js.or_default (offset a) (Js.of_Z 0) in
  {[ "count" := JNum count; "offset" := JNum offset ]}.

Definition handler (a : args) : Mcp.Eff Mcp.ToolResult :=
  result ← Mcp.await (Mcp.getOutboundMessages (filter a));
  messages ← Mcp.get "Messages" result;
  Mcp.reply (Js.JSON_stringify messages).

Definition tool : Mcp.Tool :=
  {| Mcp.Args := args; Mcp.inputSchema := inputSchema; Mcp.handler := handler |}.

End Tool.
End getOutboundMessages.

Module createDomain.

Record args := { name : string; returnPathDomain : option string }.

Section Tool.
Context `{rt : Js.Builtins}.

Definition inputSchema (o : gmap string jsval) : option args :=
  name ← z.string (o !! "name");
  returnPathDomain ← z.optional z.string (o !! "returnPathDomain");
  Some {| name := name; returnPathDomain := returnPathDomain |}.

Definition domain (a : args) : gmap string jsval :=
  Js.object_literal
    [ ("Name", Some (JStr (name a)));
      ("ReturnPathDomain", JStr <$> returnPathDomain a) ].

Definition handler (a : args) : Mcp.Eff Mcp.ToolResult :=
  result ← Mcp.await (Mcp.createDomain (domain a));
  id ← Mcp.get "ID" result;
  Mcp.reply ("Domain created! ID: " +:+ Js.interpolate id).

Definition tool : Mcp.Tool :=
  {| Mcp.Args := args; Mcp.inputSchema := inputSchema; Mcp.handler := handler |}.

End Tool.
End createDomain.

Module verifyDomain.

Record args := { domainId : Js.number }.

Section Tool.
Context `{rt : Js.Builtins}.

Definition inputSchema (o : gmap string jsval) : option args :=
  domainId ← z.number (o !! "domainId");
  Some {| domainId := domainId |}.

(** [verifyDomainDKIM] *)
Definition handlerDKIM (a : args) : Mcp.Eff Mcp.ToolResult :=
  result ← Mcp.await (Mcp.verifyDomainDKIM (domainId a));
  Mcp.reply ("DKIM verification: " +:+ Js.JSON_stringify (Some result)).

(** [verifyDomainReturnPath] *)
Definition handlerReturnPath (a : args) : Mcp.Eff Mcp.ToolResult :=
  result ← Mcp.await (Mcp.verifyDomainReturnPath (domainId a));
  Mcp.reply ("Return path verification: " +:+ Js.JSON_stringify (Some result)).

Definition toolDKIM : Mcp.Tool :=
  {| Mcp.Args := args; Mcp.inputSchema := inputSchema; Mcp.handler := handlerDKIM |}.

Definition toolReturnPath : Mcp.Tool :=
  {| Mcp.Args := args; Mcp.inputSchema := inputSchema; Mcp.handler := handlerReturnPath |}.

End Tool.
End verifyDomain.

End Shared.

(** ** The revision with tracking

    Every sending tool asks for the literals [trackOpens: true] and
    [trackLinks: "HtmlAndText"] and writes them into its payload. *)

Module Tracking.

Module sendEmail.

(** The parsed arguments the handler destructures. *)
Record args := {
  from : option string;
  to : string;
  subject : string;
  textBody : string;
  messageStream : option string;
  tag : option string
}.

Section Tool.
Context `{cfg : Config} `{rt : Js.Builtins} `{fmt : z.Formats}.

Definition inputSchema (o : gmap string jsval) : option args :=
  from ← z.optional z.string (o !! "from");
  to ← z.email (o !! "to");
  subject ← z.string (o !! "subject");
  textBody ← z.string (o !! "textBody");
  messageStream ← z.optional z.string (o !! "messageStream");
  tag ← z.optional z.string (o !! "tag");
  _ ← z.literal_bool true (o !! "trackOpens");
  _ ← z.literal_string "HtmlAndText" (o !! "trackLinks");
  Some {| from := from; to := to; subject := subject; textBody := textBody;
          messageStream := messageStream; tag := tag |}.

(** The object handed to [client.sendEmail]: the literal, then [Tag] when
    [tag && tag.trim() !== ""]. *)
Definition payload (a : args) : gmap string jsval :=
  let payload : gmap string jsval :=
    {[ "From" := JStr (Js.or_string (from a) defaultSender);
       "To" := JStr (to a);
       "Subject" := JStr (subject a);
       "TextBody" := JStr (textBody a);
       "MessageStream" := JStr (Js.or_string (messageStream a) defaultMessageStream);
       "TrackOpens" := JBool true;
       "TrackLinks" := JStr "HtmlAndText" ]} in
  match Js.when_truthy (tag a) with
  | Some t => if Js.nonempty (Js.trim t) then <["Tag" := JStr t]> payload else payload
  | None => payload
  end.

Definition handler (a : args) : Mcp.Eff Mcp.ToolResult :=
  result ← Mcp.await (Mcp.sendEmail (payload a));
  id ← Mcp.get "MessageID" result;
  Mcp.reply ("Email sent! MessageID: " +:+ Js.interpolate id).

Definition tool : Mcp.Tool :=
  {| Mcp.Args := args; Mcp.inputSchema := inputSchema; Mcp.handler := handler |}.

End Tool.
End sendEmail.

Module sendEmailBatch.

Record message := {
  to : string;
  subject : string;
  textBody : string;
  from : option string;
  messageStream : option string
}.

Record args := { messages : list message }.

Section Tool.
Context `{cfg : Config} `{rt : Js.Builtins} `{fmt : z.Formats}.

Definition messageSchema : z.schema message :=
  z.object (fun o =>
    to ← z.email (o !! "to");
    subject ← z.string (o !! "subject");
    textBody ← z.string (o !! "textBody");
    from ← z.optional z.string (o !! "from");
    messageStream ← z.optional z.string (o !! "messageStream");
    _ ← z.literal_bool true (o !! "trackOpens");
    _ ← z.literal_string "HtmlAndText" (o !! "trackLinks");
    Some {| to := to; subject := subject; textBody := textBody; from := from;
            messageStream := messageStream |}).

Definition inputSchema (o : gmap string jsval) : option args :=
  messages ← z.array messageSchema (o !! "messages");
  Some {| messages := messages |}.

(** The body of [messages.map(msg => ...)] *)
Definition entry (msg : message) : gmap string jsval :=
  {[ "From" := JStr (Js.or_string (from msg) defaultSender);
     "To" := JStr (to msg);
     "Subject" := JStr (subject msg);
     "TextBody" := JStr (textBody msg);
     "MessageStream" := JStr (Js.or_string (messageStream msg) defaultMessageStream);
     "TrackOpens" := JBool true;
     "TrackLinks" := JStr "HtmlAndText" ]}.

Definition batch (a : args) : list (gmap string jsval) :=
  entry <$> messages a.

Definition handler (a : args) : Mcp.Eff Mcp.ToolResult :=
  result ← Mcp.await (Mcp.sendEmailBatch (batch a));
  Mcp.reply ("Batch sent! Results: " +:+ Js.JSON_stringify (Some result)).

Definition tool : Mcp.Tool :=
  {| Mcp.Args := args; Mcp.inputSchema := inputSchema; Mcp.handler := handler |}.

End Tool.
End sendEmailBatch.

Module sendEmailWithTemplate.

Record args := {
  to : string;
  templateId : option Js.number;
  templateAlias : option string;
  templateModel : gmap string jsval;
  from : option string;
  messageStream : option string;
  tag : option string
}.

Section Tool.
Context `{cfg : Config} `{rt : Js.Builtins} `{fmt : z.Formats}.

Definition inputSchema (o : gmap string jsval) : option args :=
  to ← z.email (o !! "to");
  templateId ← z.optional z.number (o !! "templateId");
  templateAlias ← z.optional z.string (o !! "templateAlias");
  templateModel ← z.passthrough (o !! "templateModel");
  from ← z.optional z.string (o !! "from");
  messageStream ← z.optional z.string (o !! "messageStream");
  tag ← z.optional z.string (o !! "tag");
  _ ← z.literal_bool true (o !! "trackOpens");
  _ ← z.literal_string "HtmlAndText" (o !! "trackLinks");
  Some {| to := to; templateId := templateId; templateAlias := templateAlias;
          templateModel := templateModel; from := from;
          messageStream := messageStream; tag := tag |}.

(** The object literal the handler starts from. *)
Definition base (a : args) : gmap string jsval :=
  {[ "From" := JStr (Js.or_string (from a) defaultSender);
     "To" := JStr (to a);
     "TemplateModel" := JObj (templateModel a);
     "MessageStream" := JStr (Js.or_string (messageStream a) defaultMessageStream);
     "TrackOpens" := JBool true;
     "TrackLinks" := JStr "HtmlAndText" ]}.

(** [if (templateId) ... else if (templateAlias) ... else throw ...] *)
Definition identified (a : args) (payload : gmap string jsval)
  : Mcp.Eff (gmap string jsval) :=
  match Js.when_truthy_number (templateId a) with
  | Some id => mret (<["TemplateId" := JNum id]> payload)
  | None =>
      match Js.when_truthy (templateAlias a) with
      | Some alias => mret (<["TemplateAlias" := JStr alias]> payload)
      | None =>
          Mcp.throw (Js.new_Error "Either templateId or templateAlias must be provided.")
      end
  end.

(** [if (tag && tag.trim() !== "") payload.Tag = tag] *)
Definition tagged (a : args) (payload : gmap string jsval) : gmap string jsval :=
  match Js.when_truthy (tag a) with
  | Some t => if Js.nonempty (Js.trim t) then <["Tag" := JStr t]> payload else payload
  | None => payload
  end.

(** The statements of the handler, which the next revision wraps. *)
Definition body (a : args) : Mcp.Eff Mcp.ToolResult :=
  payload ← identified a (base a);
  result ← Mcp.await (Mcp.sendEmailWithTemplate (tagged a payload));
  id ← Mcp.get "MessageID" result;
  Mcp.reply ("Email sent with template! MessageID: " +:+ Js.interpolate id).

Definition handler (a : args) : Mcp.Eff Mcp.ToolResult := body a.

Definition tool : Mcp.Tool :=
  {| Mcp.Args := args; Mcp.inputSchema := inputSchema; Mcp.handler := handler |}.

End Tool.
End sendEmailWithTemplate.

Module getDeliveryStats.

Record args := {
  tag : option string;
  fromDate : option string;
  toDate : option string;
  messageStream : option string
}.

(** The constants the handler computes from the reply and writes into its
    text. *)
Record summary := {
  sent : jsval;
  tracked : jsval;
  openRate : string;
  safeTotalTrackedLinks : jsval;
  safeUniqueLinksClicked : jsval;
  safeClickRate : string
}.

Section Tool.
Context `{cfg : Config} `{rt : Js.Builtins}.

Definition inputSchema (o : gmap string jsval) : option args :=
  tag ← z.optional z.string (o !! "tag");
  fromDate ← z.optional z.string (o !! "fromDate");
  toDate ← z.optional z.string (o !! "toDate");
  messageStream ← z.optional z.string (o !! "messageStream");
  Some {| tag := tag; fromDate := fromDate; toDate := toDate;
          messageStream := messageStream |}.

(** [if (v) query.push(`key=${encodeURIComponent(v)}`)] *)
Definition pushed (key : string) (v : option string) : list string :=
  match Js.when_truthy v with
  | Some x => [key +:+ "=" +:+ Js.encodeURIComponent x]
  | None => []
  end.

Definition query (params : args) : list string :=
  pushed "fromdate" (fromDate params) ++ pushed "todate" (toDate params)
  ++ pushed "tag" (tag params) ++ pushed "messagestream" (messageStream params).

Definition url (params : args) : string :=
  "https://api.postmarkapp.com/stats/outbound" +:+
  match query params with
  | [] => EmptyString
  | q => "?" +:+ String.concat "&" q
  end.

Definition headers : gmap string string :=
  {[ "Accept" := "application/json"; "X-Postmark-Server-Token" := serverToken ]}.

Definition zero : Js.number := Js.of_Z 0.
Definition hundred : Js.number := Js.of_Z 100.

(** The summary statistics, from the five properties read off the reply. *)
Definition summarize (Sent Tracked UniqueOpens TotalTrackedLinksSent UniqueLinksClicked
    : option jsval) : summary :=
  let sent := Js.or_zero Sent in
  let tracked := Js.or_zero Tracked in
  let uniqueOpens := Js.or_zero UniqueOpens in
  let totalTrackedLinks := Js.or_zero TotalTrackedLinksSent in
  let uniqueLinksClicked := Js.or_zero UniqueLinksClicked in
  let openRate :=
    if Js.greater tracked zero
    then Js.toFixed 1 (Js.Math_min (Js.mul (Js.divide uniqueOpens tracked) hundred) hundred)
    else "0.0" in
  let safeTotalTrackedLinks :=
    if Js.Number_isFinite totalTrackedLinks then totalTrackedLinks else JNum zero in
  let safeUniqueLinksClicked :=
    if Js.Number_isFinite uniqueLinksClicked then uniqueLinksClicked else JNum zero in
  let safeClickRate :=
    if Js.greater safeTotalTrackedLinks zero
    then Js.toFixed 1
           (Js.Math_min
              (Js.mul (Js.divide safeUniqueLinksClicked safeTotalTrackedLinks) hundred)
              hundred)
    else "0.0" in
  {| sent := sent; tracked := tracked; openRate := openRate;
     safeTotalTrackedLinks := safeTotalTrackedLinks;
     safeUniqueLinksClicked := safeUniqueLinksClicked;
     safeClickRate := safeClickRate |}.

(** The template literal of the reply. *)
Definition rendered (s : summary) : string :=
  "You sent " +:+ Js.ToString (sent s) +:+ " emails in the selected period."
  +:+ Js.newline +:+ "Out of " +:+ Js.ToString (tracked s)
  +:+ " emails with open tracking, " +:+ openRate s +:+ "% were opened."
  +:+ Js.newline +:+ "Out of " +:+ Js.ToString (safeTotalTrackedLinks s)
  +:+ " tracked links, " +:+ Js.ToString (safeUniqueLinksClicked s)
  +:+ " unique links were clicked (" +:+ safeClickRate s +:+ "%).".

(** The summary of a reply; reading the reply fails on [null]. *)
Definition summary_of (data : jsval) : Mcp.Eff summary :=
  Sent ← Mcp.get "Sent" data;
  Tracked ← Mcp.get "Tracked" data;
  UniqueOpens ← Mcp.get "UniqueOpens" data;
  TotalTrackedLinksSent ← Mcp.get "TotalTrackedLinksSent" data;
  UniqueLinksClicked ← Mcp.get "UniqueLinksClicked" data;
  mret (summarize Sent Tracked UniqueOpens TotalTrackedLinksSent UniqueLinksClicked).

Definition handler (params : args) : Mcp.Eff Mcp.ToolResult :=
  Mcp.try_catch
    (response ← Mcp.await (Mcp.fetch (url params) headers);
     data ← Mcp.parsed response;
     s ← summary_of data;
     Mcp.reply (rendered s))
    (fun err => Mcp.reply ("Error fetching delivery stats: " +:+ Js.Error_toString err)).

Definition tool : Mcp.Tool :=
  {| Mcp.Args := args; Mcp.inputSchema := inputSchema; Mcp.handler := handler |}.

End Tool.
End getDeliveryStats.

(** The [server.tool] statements of the revision, in their order. *)
Definition registrations `{rt : Js.Builtins} `{fmt : z.Formats} (cfg : Config)
  : list (string * Mcp.Tool) :=
  [ ("sendEmail", sendEmail.tool);
    ("sendEmailBatch", sendEmailBatch.tool);
    ("sendEmailWithTemplate", sendEmailWithTemplate.tool);
    ("createTemplate", Shared.createTemplate.tool);
    ("updateTemplate", Shared.updateTemplate.tool);
    ("listTemplates", Shared.listTemplates.tool);
    ("getTemplate", Shared.getTemplate.tool);
    ("getDeliveryStats", getDeliveryStats.tool);
    ("getOutboundMessages", Shared.getOutboundMessages.tool);
    ("createDomain", Shared.createDomain.tool);
    ("verifyDomainDKIM", Shared.verifyDomain.toolDKIM);
    ("verifyDomainReturnPath", Shared.verifyDomain.toolReturnPath) ].

End Tracking.

(** ** The revision whose sending handlers catch

    It registers five tools. The body of [sendEmail] and of
    [sendEmailWithTemplate] is the one of the tracking revision inside
    [try]/[catch]; the dates of [getDeliveryStats] must match
    [YYYY-MM-DD]. *)

Module Guarded.

(** [error.message || 'Unknown error'] *)
Definition message_of (error : Js.Error) : string :=
  Js.or_string (Js.message error) "Unknown error".

Module sendEmail.
Section Tool.
Context `{cfg : Config} `{rt : Js.Builtins} `{fmt : z.Formats}.

Definition inputSchema : gmap string jsval -> option Tracking.sendEmail.args :=
  Tracking.sendEmail.inputSchema.

Definition handler (a : Tracking.sendEmail.args) : Mcp.Eff Mcp.ToolResult :=
  Mcp.try_catch
    (Tracking.sendEmail.handler a)
    (fun error => Mcp.reply ("Failed to send email: " +:+ message_of error)).

Definition tool : Mcp.Tool :=
  {| Mcp.Args := Tracking.sendEmail.args; Mcp.inputSchema := inputSchema;
     Mcp.handler := handler |}.

End Tool.
End sendEmail.

Module sendEmailWithTemplate.
Section Tool.
Context `{cfg : Config} `{rt : Js.Builtins} `{fmt : z.Formats}.

Definition inputSchema : gmap string jsval -> option Tracking.sendEmailWithTemplate.args :=
  Tracking.sendEmailWithTemplate.inputSchema.

Definition handler (a : Tracking.sendEmailWithTemplate.args) : Mcp.Eff Mcp.ToolResult :=
  Mcp.try_catch
    (Tracking.sendEmailWithTemplate.body a)
    (fun error => Mcp.reply ("Failed to send template email: " +:+ message_of error)).

Definition tool : Mcp.Tool :=
  {| Mcp.Args := Tracking.sendEmailWithTemplate.args; Mcp.inputSchema := inputSchema;
     Mcp.handler := handler |}.

End Tool.
End sendEmailWithTemplate.

Module getDeliveryStats.
Section Tool.
Context `{cfg : Config} `{rt : Js.Builtins}.

Definition inputSchema (o : gmap string jsval) : option Tracking.getDeliveryStats.args :=
  tag ← z.optional z.string (o !! "tag");
  fromDate ← z.optional z.date (o !! "fromDate");
  toDate ← z.optional z.date (o !! "toDate");
  messageStream ← z.optional z.string (o !! "messageStream");
  Some {| Tracking.getDeliveryStats.tag := tag;
          Tracking.getDeliveryStats.fromDate := fromDate;
          Tracking.getDeliveryStats.toDate := toDate;
          Tracking.getDeliveryStats.messageStream := messageStream |}.

Definition handler : Tracking.getDeliveryStats.args -> Mcp.Eff Mcp.ToolResult :=
  Tracking.getDeliveryStats.handler.

Definition tool : Mcp.Tool :=
  {| Mcp.Args := Tracking.getDeliveryStats.args; Mcp.inputSchema := inputSchema;
     Mcp.handler := handler |}.

End Tool.
End getDeliveryStats.

Definition registrations `{rt : Js.Builtins} `{fmt : z.Formats} (cfg : Config)
  : list (string * Mcp.Tool) :=
  [ ("sendEmail", sendEmail.tool);
    ("sendEmailWithTemplate", sendEmailWithTemplate.tool);
    ("listTemplates", Shared.listTemplates.tool);
    ("getDeliveryStats", getDeliveryStats.tool);
    ("getOutboundMessages", Shared.getOutboundMessages.tool) ].

End Guarded.

(** ** The tools of [postmark-mcp-server.js]

    No tracking literals, no tag, a [templateId] that the schema requires,
    and delivery rates that are neither capped nor caught. *)

Module Legacy.

Module sendEmail.

Record args := {
  to : string;
  subject : string;
  textBody : string;
  from : option string;
  messageStream : option string
}.

Section Tool.
Context `{cfg : Config} `{rt : Js.Builtins} `{fmt : z.Formats}.

Definition inputSchema (o : gmap string jsval) : option args :=
  to ← z.email (o !! "to");
  subject ← z.string (o !! "subject");
  textBody ← z.string (o !! "textBody");
  from ← z.optional z.string (o !! "from");
  messageStream ← z.optional z.string (o !! "messageStream");
  Some {| to := to; subject := subject; textBody := textBody; from := from;
          messageStream := messageStream |}.

Definition payload (a : args) : gmap string jsval :=
  {[ "From" := JStr (Js.or_string (from a) defaultSender);
     "To" := JStr (to a);
     "Subject" := JStr (subject a);
     "TextBody" := JStr (textBody a);
     "MessageStream" := JStr (Js.or_string (messageStream a) defaultMessageStream) ]}.

Definition handler (a : args) : Mcp.Eff Mcp.ToolResult :=
  result ← Mcp.await (Mcp.sendEmail (payload a));
  id ← Mcp.get "MessageID" result;
  Mcp.reply ("Email sent! MessageID: " +:+ Js.interpolate id).

Definition tool : Mcp.Tool :=
  {| Mcp.Args := args; Mcp.inputSchema := inputSchema; Mcp.handler := handler |}.

End Tool.
End sendEmail.

Module sendEmailBatch.

Record args := { messages : list sendEmail.args }.

Section Tool.
Context `{cfg : Config} `{rt : Js.Builtins} `{fmt : z.Formats}.

Definition inputSchema (o : gmap string jsval) : option args :=
  messages ← z.array (z.object sendEmail.inputSchema) (o !! "messages");
  Some {| messages := messages |}.

Definition batch (a : args) : list (gmap string jsval) :=
  sendEmail.payload <$> messages a.

Definition handler (a : args) : Mcp.Eff Mcp.ToolResult :=
  result ← Mcp.await (Mcp.sendEmailBatch (batch a));
  Mcp.reply ("Batch sent! Results: " +:+ Js.JSON_stringify (Some result)).

Definition tool : Mcp.Tool :=
  {| Mcp.Args := args; Mcp.inputSchema := inputSchema; Mcp.handler := handler |}.

End Tool.
End sendEmailBatch.

Module sendEmailWithTemplate.

Record args := {
  to : string;
  templateId : Js.number;
  templateModel : gmap string jsval;
  from : option string;
  messageStream : option string
}.

Section Tool.
Context `{cfg : Config} `{rt : Js.Builtins} `{fmt : z.Formats}.

Definition inputSchema (o : gmap string jsval) : option args :=
  to ← z.email (o !! "to");
  templateId ← z.number (o !! "templateId");
  templateModel ← z.passthrough (o !! "templateModel");
  from ← z.optional z.string (o !! "from");
  messageStream ← z.optional z.string (o !! "messageStream");
  Some {| to := to; templateId := templateId; templateModel := templateModel;
          from := from; messageStream := messageStream |}.

Definition payload (a : args) : gmap string jsval :=
  {[ "From" := JStr (Js.or_string (from a) defaultSender);
     "To" := JStr (to a);
     "TemplateId" := JNum (templateId a);
     "TemplateModel" := JObj (templateModel a);
     "MessageStream" := JStr (Js.or_string (messageStream a) defaultMessageStream) ]}.

Definition handler (a : args) : Mcp.Eff Mcp.ToolResult :=
  result ← Mcp.await (Mcp.sendEmailWithTemplate (payload a));
  id ← Mcp.get "MessageID" result;
  Mcp.reply ("Email sent with template! MessageID: " +:+ Js.interpolate id).

Definition tool : Mcp.Tool :=
  {| Mcp.Args := args; Mcp.inputSchema := inputSchema; Mcp.handler := handler |}.

End Tool.
End sendEmailWithTemplate.

Module getDeliveryStats.
Section Tool.
Context `{cfg : Config} `{rt : Js.Builtins}.

Definition inputSchema (o : gmap string jsval) : option unit := Some tt.

Definition url : string := "https://api.postmarkapp.com/deliverystats".

Definition headers : gmap string string :=
  {[ "X-Postmark-Server-Token" := serverToken; "Accept" := "application/json" ]}.

(** [new Error(`Failed to fetch delivery stats: ${response.status}
    ${response.statusText}`)] *)
Definition failed (response : Mcp.Response) : Js.Error :=
  Js.new_Error ("Failed to fetch delivery stats: "
                +:+ Js.NumberToString (Mcp.status response) +:+ " "
                +:+ Mcp.statusText response).

(** [stats.InactiveMails + stats.BouncedMails + stats.DeliveredMails] *)
Definition total (InactiveMails BouncedMails DeliveredMails : option jsval) : jsval :=
  Js.plus (Some (Js.plus InactiveMails BouncedMails)) DeliveredMails.

(** [count && sent ? (count / sent) * 100 : null], with [None] for [null] *)
Definition rate (count : option jsval) (sent : jsval) : option Js.number :=
  match count with
  | Some c =>
      if Js.truthy c && Js.truthy sent
      then Some (Js.mul (Js.divide c sent) (Js.of_Z 100))
      else None
  | None => None
  end.

(** [rate ? rate.toFixed(2) : 'N/A'] *)
Definition shown (rate : option Js.number) : string :=
  match Js.when_truthy_number rate with
  | Some x => Js.toFixed 2 x
  | None => "N/A"
  end.

(** The three texts of the result, from the four properties read off the
    statistics. *)
Definition report (InactiveMails BouncedMails DeliveredMails Opens : option jsval)
    (stats : jsval) : Mcp.ToolResult :=
  let sent := total InactiveMails BouncedMails DeliveredMails in
  let openRate := rate Opens sent in
  let bounceRate := rate BouncedMails sent in
  {| Mcp.content :=
       [ Mcp.text_content ("Open Rate (last 30 days): " +:+ shown openRate +:+ "%");
         Mcp.text_content ("Bounce Rate (last 30 days): " +:+ shown bounceRate +:+ "%");
         Mcp.text_content ("Raw stats: " +:+ Js.JSON_stringify (Some stats)) ] |}.

Definition handler (a : unit) : Mcp.Eff Mcp.ToolResult :=
  response ← Mcp.await (Mcp.fetch url headers);
  (if Mcp.ok response then mret tt else Mcp.throw (failed response));;
  stats ← Mcp.parsed response;
  InactiveMails ← Mcp.get "InactiveMails" stats;
  BouncedMails ← Mcp.get "BouncedMails" stats;
  DeliveredMails ← Mcp.get "DeliveredMails" stats;
  Opens ← Mcp.get "Opens" stats;
  mret (report InactiveMails BouncedMails DeliveredMails Opens stats).

Definition tool : Mcp.Tool :=
  {| Mcp.Args := unit; Mcp.inputSchema := inputSchema; Mcp.handler := handler |}.

End Tool.
End getDeliveryStats.

(** The [server.tool] statements of the file, in their order. *)
Definition registrations `{rt : Js.Builtins} `{fmt : z.Formats} (cfg : Config)
  : list (string * Mcp.Tool) :=
  [ ("sendEmail", sendEmail.tool);
    ("sendEmailBatch", sendEmailBatch.tool);
    ("sendEmailWithTemplate", sendEmailWithTemplate.tool);
    ("createTemplate", Shared.createTemplate.tool);
    ("updateTemplate", Shared.updateTemplate.tool);
    ("listTemplates", Shared.listTemplates.tool);
    ("getTemplate", Shared.getTemplate.tool);
    ("getDeliveryStats", getDeliveryStats.tool);
    ("getOutboundMessages", Shared.getOutboundMessages.tool);
    ("createDomain", Shared.createDomain.tool);
    ("verifyDomainDKIM", Shared.verifyDomain.toolDKIM);
    ("verifyDomainReturnPath", Shared.verifyDomain.toolReturnPath) ].

End Legacy.

(** ** Sample instances

    A run-time, a provider and a configuration to evaluate the model on
    concrete inputs. Integers print as their digits, every other number as
    a placeholder. *)
Definition sample_NumberToString (x : Js.number) : string :=
  match x with
  | S754_zero _ => "0"
  | S754_finite s m e =>
      if 0 <=? e then (if s then "-" else "") +:+ Js.decimal (Z.pos m * 2 ^ e)
      else if Z.pos m mod 2 ^ (- e) =? 0
           then (if s then "-" else "") +:+ Js.decimal (Z.pos m / 2 ^ (- e))
           else "<number>"
  | S754_infinity false => "Infinity"
  | S754_infinity true => "-Infinity"
  | S754_nan => "NaN"
  end.

#[local] Instance sample_builtins : Js.Builtins :=
  {| Js.NumberToString := sample_NumberToString;
     Js.StringToNumber := fun _ => S754_nan;
     Js.JSON_stringify := fun _ => "<json>" |}.

#[local] Instance sample_formats : z.Formats :=
  {| z.isEmail := fun s => match String.index 0 "@" s with Some _ => true | None => false end |}.

#[local] Instance sample_config : Config :=
  {| serverToken := "token"; defaultSender := "info@x.com";
     defaultMessageStream := "outbound" |}.

(** A provider that accepts every request and returns this identifier. *)
Definition sample_upstream : Mcp.Upstream :=
  Mcp.upstream
    (fun _ => inr (JObj {[ "MessageID" := JStr "b7bc2f4a-e38e-4336-af7d-e6c392c2f817" ]}))
    (fun _ _ => inr {| Mcp.ok := true; Mcp.status := Js.of_Z 200; Mcp.statusText := "OK";
                       Mcp.json := inr (JObj ∅) |}).

(** An HTTP end point that answers every request with this status and
    this body. *)
Definition responding (ok : bool) (status : Z) (statusText : string) (body : jsval)
  : Mcp.Upstream :=
  Mcp.upstream
    (fun _ => inr JNull)
    (fun _ _ => inr {| Mcp.ok := ok; Mcp.status := Js.of_Z status;
                       Mcp.statusText := statusText; Mcp.json := inr body |}).



(** A provider that is down. *)
Definition refused : Js.Error :=
  {| Js.name := "Error"; Js.message := Some "connect ECONNREFUSED" |}.

Definition failing_upstream : Mcp.Upstream :=
  Mcp.upstream (fun _ => inl refused) (fun _ _ => inl refused).

(** The parsed arguments of the scenario, and those of a template message. *)
Definition scenario_parsed : Tracking.sendEmail.args :=
  {| Tracking.sendEmail.from := None; Tracking.sendEmail.to := "a@b.com";
     Tracking.sendEmail.subject := "S"; Tracking.sendEmail.textBody := "B";
     Tracking.sendEmail.messageStream := None; Tracking.sendEmail.tag := None |}.

Definition template_parsed : Tracking.sendEmailWithTemplate.args :=
  {| Tracking.sendEmailWithTemplate.to := "jane@example.com";
     Tracking.sendEmailWithTemplate.templateId := Some (Js.of_Z 12345);
     Tracking.sendEmailWithTemplate.templateAlias := None;
     Tracking.sendEmailWithTemplate.templateModel := ∅;
     Tracking.sendEmailWithTemplate.from := None;
     Tracking.sendEmailWithTemplate.messageStream := None;
     Tracking.sendEmailWithTemplate.tag := None |}.

Definition no_filter : Tracking.getDeliveryStats.args :=
  {| Tracking.getDeliveryStats.tag := None; Tracking.getDeliveryStats.fromDate := None;
     Tracking.getDeliveryStats.toDate := None;
     Tracking.getDeliveryStats.messageStream := None |}.

(** ** Vocabulary of the statements *)

(** A computation that talks to nobody. *)
Definition silent {A} (m : Mcp.Eff A) : Prop := forall up, Mcp.issued (m up) = [].

(** Splitting a successful object schema into its fields. *)
Ltac bind_inv H :=
  repeat match type of H with
  | mbind _ ?m = Some _ =>
      let E := fresh "E" in destruct m eqn:E; simpl in H; [|discriminate H]
  end.

(** Evaluating the lookups in an object whose keys are known. *)
Ltac lookups :=
  repeat match goal with
  | |- context [ @lookup string jsval _ _ ?k ?m ] =>
      let v := eval vm_compute in (m !! k) in
      progress change (m !! k) with v
  end.

Create HintDb runs.


(** The scenario of the specification: the arguments of the call, the
    configuration, and the request the specification expects. *)
Definition scenario_arguments : gmap string jsval :=
  {[ "to" := JStr "a@b.com"; "subject" := JStr "S"; "textBody" := JStr "B" ]}.

Definition scenario_config (token : string) : Config :=
  {| serverToken := token; defaultSender := "info@x.com";
     defaultMessageStream := "outbound" |}.

Definition scenario_request : gmap string jsval :=
  {[ "From" := JStr "info@x.com"; "To" := JStr "a@b.com"; "Subject" := JStr "S";
     "TextBody" := JStr "B"; "MessageStream" := JStr "outbound" ]}.

(** The same with the literals that the revision with tracking asks for
    and writes. *)
Definition scenario_arguments_tracking : gmap string jsval :=
  <["trackOpens" := JBool true]> (<["trackLinks" := JStr "HtmlAndText"]> scenario_arguments).

Definition scenario_request_tracking : gmap string jsval :=
  <["TrackOpens" := JBool true]> (<["TrackLinks" := JStr "HtmlAndText"]> scenario_request).

(** The result of a successful [sendEmail]. *)
Definition sent (id : string) : Mcp.Outcome :=
  Mcp.Fulfilled {| Mcp.content := [Mcp.text_content ("Email sent! MessageID: " +:+ id)] |}.

(** A payload that carries the two tracking properties. *)
Definition tracked (p : gmap string jsval) : Prop :=
  p !! "TrackOpens" = Some (JBool true) /\ p !! "TrackLinks" = Some (JStr "HtmlAndText").






(** A result that reports the failure [e] of an operation: one text, made
    of the prefix that names the operation and of the message of [e], or of
    [Unknown error] when [e] has no message or an empty one. *)
Definition reports (prefix : string) (e : Js.Error) (r : Mcp.ToolResult) : Prop :=
  exists t,
    r = {| Mcp.content := [Mcp.text_content (prefix +:+ t)] |}
    /\ (forall msg, Js.message e = Some msg -> msg <> EmptyString -> t = msg)
    /\ (Js.message e = None \/ Js.message e = Some EmptyString -> t = "Unknown error").

(** *** Delivery rates *)

(** A number that is not below zero: [0 <= x], which [NaN] fails. *)
Definition nonnegative (x : Js.number) : Prop := SFleb (Js.of_Z 0) x = true.

(** A count: a finite number that is not below zero. *)
Definition count (x : Js.number) : Prop := nonnegative x /\ Js.isFinite x = true.











(** *** Every registered tool *)

(** The tools that the three revisions register, under one configuration. *)
Definition every_tool `{rt : Js.Builtins} `{fmt : z.Formats} (cfg : Config)
  : list (string * Mcp.Tool) :=
  Legacy.registrations cfg ++ Tracking.registrations cfg ++ Guarded.registrations cfg.

(** A computation that issues one request at most. *)
Definition frugal {A} (m : Mcp.Eff A) : Prop :=
  forall up, (length (Mcp.issued (m up)) <= 1)%nat.

(** A result the client can show: some content, all of it text. *)
Definition well_formed (r : Mcp.ToolResult) : Prop :=
  Mcp.content r <> [] /\ Forall (fun c => Mcp.type c = "text") (Mcp.content r).

(** A computation that, when it is fulfilled, is fulfilled with such a
    result. *)
Definition texts (m : Mcp.Eff Mcp.ToolResult) : Prop :=
  forall up r, Mcp.outcome (m up) = inr r -> well_formed r.

(** Opening the handlers up to their statements. *)
Ltac handlers :=
  unfold Legacy.sendEmail.handler, Legacy.sendEmailBatch.handler,
    Legacy.sendEmailWithTemplate.handler, Legacy.getDeliveryStats.handler,
    Tracking.sendEmail.handler, Tracking.sendEmailBatch.handler,
    Tracking.sendEmailWithTemplate.handler, Tracking.sendEmailWithTemplate.body,
    Tracking.getDeliveryStats.handler, Tracking.getDeliveryStats.summary_of,
    Guarded.sendEmail.handler, Guarded.sendEmailWithTemplate.handler,
    Guarded.getDeliveryStats.handler,
    Shared.createTemplate.handler, Shared.updateTemplate.handler,
    Shared.listTemplates.handler, Shared.getTemplate.handler,
    Shared.getOutboundMessages.handler, Shared.createDomain.handler,
    Shared.verifyDomain.handlerDKIM, Shared.verifyDomain.handlerReturnPath.

(** *** The environment *)

(** A variable of the environment that is missing or empty, and one that
    holds a value. *)
Definition missing (v : option string) : Prop := v = None \/ v = Some EmptyString.

Definition present (v : option string) : Prop := exists s, v = Some s /\ s <> EmptyString.

(** The error of a variable that is not set. *)
Definition not_set (variable : string) : Js.Error :=
  Js.new_Error (variable +:+ " is not set. Please configure it in your .env file.").

(** *** The shapes of the input schemas *)

(** The keys of the shape each [server.tool] statement gives, by revision
    and in the order of the registrations. *)
Definition shared_shapes : list (string * list string) :=
  [ ("createTemplate", ["name"; "subject"; "htmlBody"; "textBody"; "alias"]);
    ("updateTemplate", ["templateId"; "name"; "subject"; "htmlBody"; "textBody"; "alias"]);
    ("listTemplates", []);
    ("getTemplate", ["templateId"]) ].

Definition domain_shapes : list (string * list string) :=
  [ ("getOutboundMessages", ["count"; "offset"]);
    ("createDomain", ["name"; "returnPathDomain"]);
    ("verifyDomainDKIM", ["domainId"]);
    ("verifyDomainReturnPath", ["domainId"]) ].

Definition legacy_shapes : list (string * list string) :=
  [ ("sendEmail", ["to"; "subject"; "textBody"; "from"; "messageStream"]);
    ("sendEmailBatch", ["messages"]);
    ("sendEmailWithTemplate", ["to"; "templateId"; "templateModel"; "from"; "messageStream"]) ]
  ++ shared_shapes ++ [ ("getDeliveryStats", []) ] ++ domain_shapes.

Definition tracking_shapes : list (string * list string) :=
  [ ("sendEmail",
     ["from"; "to"; "subject"; "textBody"; "messageStream"; "tag"; "trackOpens";
      "trackLinks"]);
    ("sendEmailBatch", ["messages"]);
    ("sendEmailWithTemplate",
     ["to"; "templateId"; "templateAlias"; "templateModel"; "from"; "messageStream";
      "tag"; "trackOpens"; "trackLinks"]) ]
  ++ shared_shapes
  ++ [ ("getDeliveryStats", ["tag"; "fromDate"; "toDate"; "messageStream"]) ]
  ++ domain_shapes.

Definition guarded_shapes : list (string * list string) :=
  [ ("sendEmail",
     ["from"; "to"; "subject"; "textBody"; "messageStream"; "tag"; "trackOpens";
      "trackLinks"]);
    ("sendEmailWithTemplate",
     ["to"; "templateId"; "templateAlias"; "templateModel"; "from"; "messageStream";
      "tag"; "trackOpens"; "trackLinks"]);
    ("listTemplates", []);
    ("getDeliveryStats", ["tag"; "fromDate"; "toDate"; "messageStream"]);
    ("getOutboundMessages", ["count"; "offset"]) ].

(** A tool that reads its arguments under these keys only: an argument
    under another key changes neither the requests nor the outcome. *)
Definition reads_only (keys : list string) (t : Mcp.Tool) : Prop :=
  forall k v args up, k ∉ keys -> Mcp.call t (<[k := v]> args) up = Mcp.call t args up.

(** A registration list whose tools read the keys of these shapes only. *)
Definition shaped (registrations : list (string * Mcp.Tool))
    (shapes : list (string * list string)) : Prop :=
  Forall2 (fun nt nk => nt.1 = nk.1 /\ reads_only nk.2 nt.2) registrations shapes.

(** *** Validation *)

(** A call that validation refuses: no request, and an invalid-parameters
    answer. *)
Definition refused_call (t : Mcp.Tool) (args : gmap string jsval) : Prop :=
  forall up, Mcp.call t args up = ([], Mcp.InvalidParams).

(** Arguments without a recipient. *)
Definition no_recipient : gmap string jsval :=
  {[ "subject" := JStr "S"; "textBody" := JStr "B"; "trackOpens" := JBool true;
     "trackLinks" := JStr "HtmlAndText" ]}.

(** *** Template messages *)

(** A number that [if (templateId)] takes for no identifier: a zero. *)
Definition no_identifier (v : option jsval) : Prop :=
  v = None \/ exists x, v = Some (JNum x) /\ Js.truthy_number x = false.

(** A string that [if (templateAlias)] takes for no alias: the empty one. *)
Definition no_alias (v : option jsval) : Prop :=
  v = None \/ v = Some (JStr EmptyString).

(** A template message that names its template twice. *)
Definition twice_identified : gmap string jsval :=
  {[ "to" := JStr "jane@example.com"; "templateId" := JNum (Js.of_Z 12345);
     "templateAlias" := JStr "welcome"; "templateModel" := JObj {[ "name" := JStr "Jane" ]};
     "trackOpens" := JBool true; "trackLinks" := JStr "HtmlAndText" ]}.

(** *** Templates *)

(** A key that is none of the keys of a literal. *)
Ltac absent := apply (bool_decide_unpack _); vm_compute; reflexivity.

(** The properties of a template that [updateTemplate] can change. *)
Definition template_fields : list string :=
  ["name"; "subject"; "htmlBody"; "textBody"; "alias"].

(** A new template without a text body, and a change of subject. *)
Definition welcome_template : gmap string jsval :=
  {[ "name" := JStr "Welcome"; "subject" := JStr "Hello"; "htmlBody" := JStr "<p>Hi</p>" ]}.

Definition subject_change : gmap string jsval :=
  {[ "templateId" := JNum (Js.of_Z 12345); "subject" := JStr "Hello again" ]}.

(** *** The address of the statistics *)

(** How often a character occurs in a string. *)
Fixpoint occurrences (c : Ascii.ascii) (s : string) : nat :=
  match s with
  | EmptyString => O
  | String c' s' => ((if Ascii.eqb c c' then 1 else 0) + occurrences c s')%nat
  end.

(** The filters of a call that are not empty, the ones the handler writes
    into the query. *)
Definition written (v : option string) : nat :=
  match Js.when_truthy v with Some _ => 1%nat | None => O end.

Definition filters (params : Tracking.getDeliveryStats.args) : nat :=
  (written (Tracking.getDeliveryStats.fromDate params)
   + written (Tracking.getDeliveryStats.toDate params)
   + written (Tracking.getDeliveryStats.tag params)
   + written (Tracking.getDeliveryStats.messageStream params))%nat.

(** The three characters that give a query its structure. *)
Definition question : Ascii.ascii := Ascii.ascii_of_N 63.
Definition ampersand : Ascii.ascii := Ascii.ascii_of_N 38.
Definition equals : Ascii.ascii := Ascii.ascii_of_N 61.

(** What an item of the query holds of the three characters: one [=]. *)
Definition item (s : string) : Prop :=
  occurrences equals s = 1%nat /\ occurrences ampersand s = O
  /\ occurrences question s = O.

(** A tag that tries to add a parameter of its own. *)
Definition injecting : Tracking.getDeliveryStats.args :=
  {| Tracking.getDeliveryStats.tag := Some "a&messagestream=b?c";
     Tracking.getDeliveryStats.fromDate := Some "2024-01-01";
     Tracking.getDeliveryStats.toDate := None;
     Tracking.getDeliveryStats.messageStream := Some "" |}.

(** *** Statistics that are not there *)

(** The five counts that the later [getDeliveryStats] reads, and the three
    that the one of [postmark-mcp-server.js] adds up. *)
Definition count_keys : list string :=
  ["Sent"; "Tracked"; "UniqueOpens"; "TotalTrackedLinksSent"; "UniqueLinksClicked"].

Definition total_keys : list string := ["InactiveMails"; "BouncedMails"; "DeliveredMails"].

(** A body that holds none of these keys: any value but [null] that is not
    an object with one of them. *)
Definition without (keys : list string) (data : jsval) : Prop :=
  data <> JNull /\ forall o k, data = JObj o -> k ∈ keys -> o !! k = None.

(** The text of a summary in which every count is zero. *)
Definition no_statistics `{rt : Js.Builtins} : string :=
  let zero := Js.NumberToString (S754_zero false) in
  "You sent " +:+ zero +:+ " emails in the selected period."
  +:+ Js.newline +:+ "Out of " +:+ zero +:+ " emails with open tracking, 0.0% were opened."
  +:+ Js.newline +:+ "Out of " +:+ zero +:+ " tracked links, " +:+ zero
  +:+ " unique links were clicked (0.0%).".

(** The texts of [postmark-mcp-server.js] when it has no rate to show. *)
Definition not_available `{rt : Js.Builtins} (stats : jsval) : Mcp.ToolResult :=
  {| Mcp.content :=
       [ Mcp.text_content "Open Rate (last 30 days): N/A%";
         Mcp.text_content "Bounce Rate (last 30 days): N/A%";
         Mcp.text_content ("Raw stats: " +:+ Js.JSON_stringify (Some stats)) ] |}.

(** The reply of the provider's [deliverystats] end point, which has the
    inactive messages and the bounces by kind, and an error body. *)
Definition sample_inactive : jsval :=
  JObj {[ "InactiveMails" := JNum (Js.of_Z 192); "Bounces" := JArr [] ]}.

Definition sample_error_body : jsval :=
  JObj {[ "ErrorCode" := JNum (Js.of_Z 10); "Message" := JStr "Bad or missing token" ]}.

(** *** Replies and batches *)

(** The text of a message that was sent, for what the reply holds under
    [MessageID]. *)
Definition sent_as `{rt : Js.Builtins} (id : option jsval) : Mcp.ToolResult :=
  {| Mcp.content := [Mcp.text_content ("Email sent! MessageID: " +:+ Js.interpolate id)] |}.

(** A provider that accepts every request and answers [null]. *)
Definition answering_null : Mcp.Upstream :=
  Mcp.upstream (fun _ => inr JNull)
    (fun _ _ => inr {| Mcp.ok := true; Mcp.status := Js.of_Z 200; Mcp.statusText := "OK";
                       Mcp.json := inr JNull |}).

(** A batch of no message. *)
Definition empty_batch : gmap string jsval := {[ "messages" := JArr [] ]}.

(** *** Handlers that do not catch *)

(** The tools whose handler has no [try] statement around its request:
    every tool of [postmark-mcp-server.js], the tools of the revision with
    tracking other than [getDeliveryStats], and [listTemplates] and
    [getOutboundMessages] in the revision that catches. *)
Definition uncatching `{rt : Js.Builtins} `{fmt : z.Formats} (cfg : Config)
  : list (string * Mcp.Tool) :=
  Legacy.registrations cfg
  ++ [ ("sendEmail", Tracking.sendEmail.tool);
       ("sendEmailBatch", Tracking.sendEmailBatch.tool);
       ("sendEmailWithTemplate", Tracking.sendEmailWithTemplate.tool);
       ("createTemplate", Shared.createTemplate.tool);
       ("updateTemplate", Shared.updateTemplate.tool);
       ("listTemplates", Shared.listTemplates.tool);
       ("getTemplate", Shared.getTemplate.tool);
       ("getOutboundMessages", Shared.getOutboundMessages.tool);
       ("createDomain", Shared.createDomain.tool);
       ("verifyDomainDKIM", Shared.verifyDomain.toolDKIM);
       ("verifyDomainReturnPath", Shared.verifyDomain.toolReturnPath) ]
  ++ [ ("listTemplates", Shared.listTemplates.tool);
       ("getOutboundMessages", Shared.getOutboundMessages.tool) ].

(** A tool that lets the failure of its request through: the call is
    rejected with the error of the provider, as it is. *)
Definition propagates (t : Mcp.Tool) : Prop :=
  forall args (up : Mcp.Upstream) r e,
    (Mcp.call t args up).1 = [r] -> up r = inl e ->
    (Mcp.call t args up).2 = Mcp.Rejected e.


(** * Properties *)

(** ** The run-time *)

Example toFixed_samples :
  Js.toFixed 1 (Js.of_Z 100) = "100.0"
  /\ Js.toFixed 1 (Js.div (Js.of_Z 1) (Js.of_Z 3)) = "0.3"
  /\ Js.toFixed 1 (Js.mul (Js.div (Js.of_Z 1) (Js.of_Z 2000)) (Js.of_Z 100)) = "0.1"
  /\ Js.toFixed 2 (Js.div (Js.of_Z 1) (Js.of_Z 8)) = "0.13"
  /\ Js.toFixed 1 (Js.div (Js.of_Z (-1)) (Js.of_Z 100)) = "-0.0"
  /\ Js.trim "  a b " = "a b"
  /\ Js.encodeURIComponent "a b&c" = "a%20b%26c"
  /\ Js.ToString (JNum (Js.of_Z 100)) = "100".
Proof. vm_compute. repeat split. Qed.

(** ** Schemas: what an accepted value looks like *)

Section SchemaInversion.
Context `{fmt : z.Formats}.

Lemma string_inv v s : z.string v = Some s -> v = Some (JStr s).
Proof. destruct v as [[]|]; simpl; congruence. Qed.

Lemma email_inv v s : z.email v = Some s -> v = Some (JStr s) /\ z.isEmail s = true.
Proof.
  unfold z.email. destruct (z.string v) as [s'|] eqn:E; simpl; [|discriminate].
  apply string_inv in E. destruct (z.isEmail s') eqn:Em; [|discriminate].
  intros [= <-]. auto.
Qed.

Lemma number_inv v x : z.number v = Some x -> v = Some (JNum x) /\ Js.isNaN x = false.
Proof.
  destruct v as [[]|]; simpl; try discriminate.
  destruct (Js.isNaN _) eqn:E; [discriminate|]. intros [= <-]. auto.
Qed.

Lemma literal_bool_inv lit v b : z.literal_bool lit v = Some b -> v = Some (JBool lit).
Proof.
  destruct v as [[]|]; simpl; try discriminate.
  destruct (Bool.eqb _ _) eqn:E; [|discriminate].
  apply Bool.eqb_prop in E. congruence.
Qed.

Lemma literal_string_inv lit v s : z.literal_string lit v = Some s -> v = Some (JStr lit).
Proof.
  destruct v as [[]|]; simpl; try discriminate.
  destruct (String.eqb _ _) eqn:E; [|discriminate].
  apply String.eqb_eq in E. congruence.
Qed.

Lemma optional_inv {A} (sch : z.schema A) v r :
  z.optional sch v = Some r ->
  (v = None /\ r = None) \/ (exists a, is_Some v /\ sch v = Some a /\ r = Some a).
Proof.
  destruct v as [x|]; simpl.
  - destruct (sch (Some x)) as [a|] eqn:E; simpl; [|discriminate].
    intros [= <-]. right. eauto.
  - intros [= <-]. auto.
Qed.

Lemma optional_string_inv v r :
  z.optional z.string v = Some r -> v = JStr <$> r.
Proof.
  intros Hv. apply optional_inv in Hv as [[-> ->]|(s & _ & Hs & ->)]; [done|].
  by apply string_inv in Hs.
Qed.

Lemma optional_number_inv v r :
  z.optional z.number v = Some r -> v = JNum <$> r.
Proof.
  intros Hv. apply optional_inv in Hv as [[-> ->]|(s & _ & Hs & ->)]; [done|].
  by apply number_inv in Hs as [-> _].
Qed.

End SchemaInversion.

(** ** Handlers: the requests of a run *)

Section Runs.
Context `{rt : Js.Builtins}.

Lemma silent_get k v : silent (Mcp.get k v).
Proof. intros up. unfold Mcp.get. by destruct (Js.prop k v). Qed.

Lemma silent_reply t : silent (Mcp.reply t).
Proof. by intros up. Qed.

Lemma silent_throw {A} e : silent (@Mcp.throw A e).
Proof. by intros up. Qed.

Lemma silent_ret {A} (a : A) : silent (mret a).
Proof. by intros up. Qed.

Lemma silent_parsed response : silent (Mcp.parsed response).
Proof. by intros up. Qed.

Lemma silent_bind {A B} (m : Mcp.Eff A) (k : A -> Mcp.Eff B) :
  silent m -> (forall a, silent (k a)) -> silent (m ≫= k).
Proof.
  intros Hm Hk up. unfold mbind, Mcp.Eff_bind, Mcp.bind.
  destruct (Mcp.outcome (m up)); simpl; rewrite Hm; [done|]. by rewrite Hk.
Qed.

(** What follows in silence adds no request, whatever the reply. *)
Lemma issued_await {A B} (m : Mcp.Eff A) (k : A -> Mcp.Eff B) up :
  (forall v, silent (k v)) -> Mcp.issued ((m ≫= k) up) = Mcp.issued (m up).
Proof.
  intros Hk. unfold mbind, Mcp.Eff_bind, Mcp.bind.
  destruct (Mcp.outcome (m up)); simpl; [done|]. by rewrite Hk, app_nil_r.
Qed.

Lemma outcome_await {A B} (m : Mcp.Eff A) (k : A -> Mcp.Eff B) up :
  Mcp.outcome ((m ≫= k) up)
  = match Mcp.outcome (m up) with inl e => inl e | inr v => Mcp.outcome (k v up) end.
Proof.
  unfold mbind, Mcp.Eff_bind, Mcp.bind. by destruct (Mcp.outcome (m up)).
Qed.

(** A handler that catches into a reply is always fulfilled. *)
Lemma issued_try_catch {A} (body : Mcp.Eff A) h up :
  (forall e, silent (h e)) ->
  Mcp.issued (Mcp.try_catch body h up) = Mcp.issued (body up).
Proof.
  intros Hh. unfold Mcp.try_catch.
  destruct (Mcp.outcome (body up)); simpl; [|done]. rewrite Hh. by rewrite app_nil_r.
Qed.

Lemma outcome_try_catch (body : Mcp.Eff Mcp.ToolResult) (text : Js.Error -> string) up :
  Mcp.outcome (Mcp.try_catch body (fun e => Mcp.reply (text e)) up)
  = match Mcp.outcome (body up) with
    | inl e => inr {| Mcp.content := [Mcp.text_content (text e)] |}
    | inr r => inr r
    end.
Proof.
  unfold Mcp.try_catch. by destruct (Mcp.outcome (body up)) eqn:E; simpl.
Qed.

(** The text of a reply that reads an identifier off the provider's
    answer. *)
Lemma outcome_identified prefix k (o : gmap string jsval) id up :
  o !! k = Some (JStr id) ->
  Mcp.outcome ((x ← Mcp.get k (JObj o); Mcp.reply (prefix +:+ Js.interpolate x)) up)
  = inr {| Mcp.content := [Mcp.text_content (prefix +:+ id)] |}.
Proof.
  intros Hk. unfold mbind, Mcp.Eff_bind, Mcp.bind, Mcp.get. simpl. by rewrite Hk.
Qed.

End Runs.

#[local] Hint Resolve silent_get silent_reply silent_throw silent_ret silent_parsed
  silent_bind : runs.

(** ** Sender and message stream *)

Section Defaults.
Context `{cfg : Config} `{rt : Js.Builtins} `{fmt : z.Formats}.

Lemma or_string_supplied f d : f <> EmptyString -> Js.or_string (Some f) d = f.
Proof. by destruct f. Qed.

Lemma or_string_default v d : v = None \/ v = Some EmptyString -> Js.or_string v d = d.
Proof. by intros [-> | ->]. Qed.

(** What [v || d] is, read off the caller's object. *)
Lemma or_string_cases (o : gmap string jsval) k v d :
  o !! k = JStr <$> v ->
  (forall f, o !! k = Some (JStr f) -> f <> EmptyString -> Js.or_string v d = f)
  /\ (o !! k = None \/ o !! k = Some (JStr EmptyString) -> Js.or_string v d = d).
Proof.
  intros Hk. split.
  - intros f Hf Hne. rewrite Hk in Hf. destruct v; simplify_eq/=.
    by apply or_string_supplied.
  - intros Hd. apply or_string_default. rewrite Hk in Hd.
    destruct v; simplify_eq/=; destruct Hd; simplify_eq; auto.
Qed.

Lemma legacy_sendEmail_accepts o a :
  Legacy.sendEmail.inputSchema o = Some a ->
  o !! "to" = Some (JStr (Legacy.sendEmail.to a))
  /\ o !! "subject" = Some (JStr (Legacy.sendEmail.subject a))
  /\ o !! "textBody" = Some (JStr (Legacy.sendEmail.textBody a))
  /\ o !! "from" = JStr <$> Legacy.sendEmail.from a
  /\ o !! "messageStream" = JStr <$> Legacy.sendEmail.messageStream a.
Proof.
  unfold Legacy.sendEmail.inputSchema. intros Ha. bind_inv Ha.
  injection Ha as <-. simpl.
  apply optional_string_inv in E2, E3. apply email_inv in E as [E _].
  apply string_inv in E0, E1. auto.
Qed.

Lemma tracking_sendEmail_accepts o a :
  Tracking.sendEmail.inputSchema o = Some a ->
  o !! "from" = JStr <$> Tracking.sendEmail.from a
  /\ o !! "to" = Some (JStr (Tracking.sendEmail.to a))
  /\ o !! "subject" = Some (JStr (Tracking.sendEmail.subject a))
  /\ o !! "textBody" = Some (JStr (Tracking.sendEmail.textBody a))
  /\ o !! "messageStream" = JStr <$> Tracking.sendEmail.messageStream a
  /\ o !! "tag" = JStr <$> Tracking.sendEmail.tag a
  /\ o !! "trackOpens" = Some (JBool true)
  /\ o !! "trackLinks" = Some (JStr "HtmlAndText").
Proof.
  unfold Tracking.sendEmail.inputSchema. intros Ha. bind_inv Ha.
  injection Ha as <-. simpl.
  apply optional_string_inv in E, E3, E4. apply email_inv in E0 as [E0 _].
  apply string_inv in E1, E2.
  apply literal_bool_inv in E5. apply literal_string_inv in E6. auto 10.
Qed.

(** The tag, when it is written, leaves the other properties alone. *)
Lemma tracking_sendEmail_payload_other a k :
  k <> "Tag" ->
  Tracking.sendEmail.payload a !! k
  = ({[ "From" := JStr (Js.or_string (Tracking.sendEmail.from a) defaultSender);
        "To" := JStr (Tracking.sendEmail.to a);
        "Subject" := JStr (Tracking.sendEmail.subject a);
        "TextBody" := JStr (Tracking.sendEmail.textBody a);
        "MessageStream" :=
          JStr (Js.or_string (Tracking.sendEmail.messageStream a) defaultMessageStream);
        "TrackOpens" := JBool true;
        "TrackLinks" := JStr "HtmlAndText" ]} : gmap string jsval) !! k.
Proof.
  intros Hk. unfold Tracking.sendEmail.payload.
  destruct (Js.when_truthy _); [destruct (Js.nonempty _)|]; try done.
  by rewrite lookup_insert_ne.
Qed.

Lemma legacy_sendEmail_issued a up :
  Mcp.issued (Legacy.sendEmail.handler a up) = [Mcp.sendEmail (Legacy.sendEmail.payload a)].
Proof. apply issued_await. auto with runs. Qed.

Lemma tracking_sendEmail_issued a up :
  Mcp.issued (Tracking.sendEmail.handler a up)
  = [Mcp.sendEmail (Tracking.sendEmail.payload a)].
Proof. apply issued_await. auto with runs. Qed.

Lemma guarded_sendEmail_issued a up :
  Mcp.issued (Guarded.sendEmail.handler a up)
  = [Mcp.sendEmail (Tracking.sendEmail.payload a)].
Proof.
  unfold Guarded.sendEmail.handler. rewrite issued_try_catch by auto with runs.
  apply tracking_sendEmail_issued.
Qed.

End Defaults.

Section SenderAndStream.
Context `{cfg : Config} `{rt : Js.Builtins} `{fmt : z.Formats}.

(** The law of the two defaults, for a payload [p] built from the parsed
    [from] and [messageStream] of the caller's object [raw]. *)
Lemma defaults_applied (raw p : gmap string jsval) fr ms :
  raw !! "from" = JStr <$> fr ->
  raw !! "messageStream" = JStr <$> ms ->
  p !! "From" = Some (JStr (Js.or_string fr defaultSender)) ->
  p !! "MessageStream" = Some (JStr (Js.or_string ms defaultMessageStream)) ->
  (forall f, raw !! "from" = Some (JStr f) -> f <> EmptyString ->
     p !! "From" = Some (JStr f))
  /\ (raw !! "from" = None \/ raw !! "from" = Some (JStr EmptyString) ->
     p !! "From" = Some (JStr defaultSender))
  /\ (forall s, raw !! "messageStream" = Some (JStr s) -> s <> EmptyString ->
     p !! "MessageStream" = Some (JStr s))
  /\ (raw !! "messageStream" = None \/ raw !! "messageStream" = Some (JStr EmptyString) ->
     p !! "MessageStream" = Some (JStr defaultMessageStream)).
Proof.
  intros Hf Hm -> ->.
  destruct (or_string_cases raw "from" fr defaultSender Hf) as [F1 F2].
  destruct (or_string_cases raw "messageStream" ms defaultMessageStream Hm) as [M1 M2].
  repeat split.
  - intros f ? ?. by rewrite (F1 f).
  - intros ?. by rewrite F2.
  - intros s ? ?. by rewrite (M1 s).
  - intros ?. by rewrite M2.
Qed.

(** C1 (amended). For every input that the schema of [sendEmail] accepts, in
    each of the three revisions, the handler issues exactly one request, a
    [sendEmail] whose [From] is the caller's [from] when that is present and
    not the empty string, and the configured default sender when [from] is
    missing or empty; likewise [MessageStream] with [messageStream] and the
    configured default stream. *)
Theorem sendEmail_sender_and_stream (t : Mcp.Tool) (raw : gmap string jsval)
    (up : Mcp.Upstream) :
  t ∈ [Legacy.sendEmail.tool; Tracking.sendEmail.tool; Guarded.sendEmail.tool] ->
  is_Some (Mcp.inputSchema t raw) ->
  exists p : gmap string jsval,
    (Mcp.call t raw up).1 = [Mcp.sendEmail p]
    /\ (forall f, raw !! "from" = Some (JStr f) -> f <> EmptyString ->
          p !! "From" = Some (JStr f))
    /\ (raw !! "from" = None \/ raw !! "from" = Some (JStr EmptyString) ->
          p !! "From" = Some (JStr defaultSender))
    /\ (forall s, raw !! "messageStream" = Some (JStr s) -> s <> EmptyString ->
          p !! "MessageStream" = Some (JStr s))
    /\ (raw !! "messageStream" = None \/ raw !! "messageStream" = Some (JStr EmptyString) ->
          p !! "MessageStream" = Some (JStr defaultMessageStream)).
Proof.
  rewrite !elem_of_cons, elem_of_nil.
  intros [-> | [-> | [-> | []]]] [a Ha]; unfold Mcp.call; simpl in *; rewrite Ha.
  - exists (Legacy.sendEmail.payload a). simpl. split.
    + apply legacy_sendEmail_issued.
    + apply legacy_sendEmail_accepts in Ha as (_ & _ & _ & Hf & Hm).
      by apply (defaults_applied raw _ _ _ Hf Hm).
  - exists (Tracking.sendEmail.payload a). simpl. split.
    + apply tracking_sendEmail_issued.
    + apply tracking_sendEmail_accepts in Ha as (Hf & _ & _ & _ & Hm & _).
      apply (defaults_applied raw _ _ _ Hf Hm);
        by rewrite tracking_sendEmail_payload_other.
  - exists (Tracking.sendEmail.payload a). simpl. split.
    + apply guarded_sendEmail_issued.
    + apply tracking_sendEmail_accepts in Ha as (Hf & _ & _ & _ & Hm & _).
      apply (defaults_applied raw _ _ _ Hf Hm);
        by rewrite tracking_sendEmail_payload_other.
Qed.

End SenderAndStream.

(** A call that names its sender and leaves the stream to the default. *)
Lemma sendEmail_sender_and_stream_witness :
  exists p : gmap string jsval,
    (Mcp.call Tracking.sendEmail.tool
       {[ "to" := JStr "a@b.com"; "subject" := JStr "S"; "textBody" := JStr "B";
          "from" := JStr "me@x.com"; "trackOpens" := JBool true;
          "trackLinks" := JStr "HtmlAndText" ]} sample_upstream).1
    = [Mcp.sendEmail p]
    /\ p !! "From" = Some (JStr "me@x.com")
    /\ p !! "MessageStream" = Some (JStr "outbound").
Proof.
  destruct (sendEmail_sender_and_stream Tracking.sendEmail.tool
    {[ "to" := JStr "a@b.com"; "subject" := JStr "S"; "textBody" := JStr "B";
       "from" := JStr "me@x.com"; "trackOpens" := JBool true;
       "trackLinks" := JStr "HtmlAndText" ]} sample_upstream)
    as (p & Hp & Hfrom & _ & _ & Hstream).
  - apply list_elem_of_further, list_elem_of_here.
  - vm_compute. eexists. reflexivity.
  - exists p. split; [exact Hp|]. split.
    + apply Hfrom; [reflexivity | discriminate].
    + apply Hstream. left. reflexivity.
Defined.

(** C1 as stated fails on an empty [from]: the input is accepted, [from] is
    present, and the request carries the default sender instead. *)
Lemma sendEmail_empty_from_counterexample :
  let raw : gmap string jsval :=
    {[ "to" := JStr "a@b.com"; "subject" := JStr "S"; "textBody" := JStr "B";
       "from" := JStr ""; "trackOpens" := JBool true;
       "trackLinks" := JStr "HtmlAndText" ]} in
  let a := {| Tracking.sendEmail.from := Some EmptyString;
              Tracking.sendEmail.to := "a@b.com";
              Tracking.sendEmail.subject := "S";
              Tracking.sendEmail.textBody := "B";
              Tracking.sendEmail.messageStream := None;
              Tracking.sendEmail.tag := None |} in
  raw !! "from" = Some (JStr "")
  /\ Tracking.sendEmail.inputSchema raw = Some a
  /\ (Mcp.call Tracking.sendEmail.tool raw sample_upstream).1
     = [Mcp.sendEmail (Tracking.sendEmail.payload a)]
  /\ Tracking.sendEmail.payload a !! "From" = Some (JStr "info@x.com")
  /\ Tracking.sendEmail.payload a !! "From" <> Some (JStr "").
Proof. vm_compute. repeat split; discriminate. Qed.

(** ** Batches *)

Section Batches.
Context `{cfg : Config} `{rt : Js.Builtins} `{fmt : z.Formats}.






End Batches.

Section BatchEntries.
Context `{cfg : Config} `{rt : Js.Builtins} `{fmt : z.Formats}.




End BatchEntries.



(** ** Templates *)

Section Templates.
Context `{cfg : Config} `{rt : Js.Builtins} `{fmt : z.Formats}.

Lemma tracking_template_accepts o a :
  Tracking.sendEmailWithTemplate.inputSchema o = Some a ->
  o !! "templateId" = JNum <$> Tracking.sendEmailWithTemplate.templateId a
  /\ o !! "templateAlias" = JStr <$> Tracking.sendEmailWithTemplate.templateAlias a
  /\ o !! "from" = JStr <$> Tracking.sendEmailWithTemplate.from a
  /\ o !! "messageStream" = JStr <$> Tracking.sendEmailWithTemplate.messageStream a
  /\ o !! "tag" = JStr <$> Tracking.sendEmailWithTemplate.tag a
  /\ o !! "trackOpens" = Some (JBool true)
  /\ o !! "trackLinks" = Some (JStr "HtmlAndText").
Proof.
  unfold Tracking.sendEmailWithTemplate.inputSchema. intros Ha. bind_inv Ha.
  injection Ha as <-. simpl.
  apply optional_number_inv in E0. apply optional_string_inv in E1, E3, E4, E5.
  apply literal_bool_inv in E6. apply literal_string_inv in E7. auto 10.
Qed.

(** Without an identifier and without an alias the body throws before it
    reaches the provider. *)
Lemma template_body_unidentified a up :
  Tracking.sendEmailWithTemplate.templateId a = None ->
  Tracking.sendEmailWithTemplate.templateAlias a = None ->
  Tracking.sendEmailWithTemplate.body a up
  = Mcp.mkRun []
      (inl (Js.new_Error "Either templateId or templateAlias must be provided.")).
Proof.
  intros Hid Halias.
  unfold Tracking.sendEmailWithTemplate.body, Tracking.sendEmailWithTemplate.identified.
  by rewrite Hid, Halias.
Qed.

(** C2. A call of [sendEmailWithTemplate] that supplies neither
    [templateId] nor [templateAlias] fails for want of an argument and
    issues no request, in every revision: the schema of
    [postmark-mcp-server.js] refuses it; the handler of the revision with
    tracking throws [Either templateId or templateAlias must be provided.]
    before it calls the client (when another argument is at fault the
    schema refuses the call first); the revision that catches returns that
    message as its failure text. *)
Theorem sendEmailWithTemplate_requires_template (raw : gmap string jsval)
    (up : Mcp.Upstream) :
  raw !! "templateId" = None ->
  raw !! "templateAlias" = None ->
  Mcp.call Legacy.sendEmailWithTemplate.tool raw up = ([], Mcp.InvalidParams)
  /\ Mcp.call Tracking.sendEmailWithTemplate.tool raw up
     = ([], match Tracking.sendEmailWithTemplate.inputSchema raw with
            | Some _ =>
                Mcp.Rejected
                  (Js.new_Error "Either templateId or templateAlias must be provided.")
            | None => Mcp.InvalidParams
            end)
  /\ Mcp.call Guarded.sendEmailWithTemplate.tool raw up
     = ([], match Tracking.sendEmailWithTemplate.inputSchema raw with
            | Some _ =>
                Mcp.Fulfilled
                  {| Mcp.content :=
                       [Mcp.text_content
                          "Failed to send template email: Either templateId or templateAlias must be provided."] |}
            | None => Mcp.InvalidParams
            end).
Proof.
  intros Hid Halias. split; [|split].
  - unfold Mcp.call; simpl. unfold Legacy.sendEmailWithTemplate.inputSchema.
    rewrite Hid. by destruct (z.email _).
  - unfold Mcp.call; simpl.
    destruct (Tracking.sendEmailWithTemplate.inputSchema raw) as [a|] eqn:Ha; [|done].
    apply tracking_template_accepts in Ha as (Ei & Ea & _).
    rewrite Hid in Ei. rewrite Halias in Ea.
    rewrite template_body_unidentified; [done| |].
    + by destruct (Tracking.sendEmailWithTemplate.templateId a).
    + by destruct (Tracking.sendEmailWithTemplate.templateAlias a).
  - unfold Mcp.call; simpl. unfold Guarded.sendEmailWithTemplate.inputSchema.
    destruct (Tracking.sendEmailWithTemplate.inputSchema raw) as [a|] eqn:Ha; [|done].
    apply tracking_template_accepts in Ha as (Ei & Ea & _).
    rewrite Hid in Ei. rewrite Halias in Ea.
    unfold Guarded.sendEmailWithTemplate.handler, Mcp.try_catch.
    rewrite template_body_unidentified; [done| |].
    + by destruct (Tracking.sendEmailWithTemplate.templateId a).
    + by destruct (Tracking.sendEmailWithTemplate.templateAlias a).
Qed.

End Templates.

(** A call with a recipient and a model, and nothing to name the template. *)
Lemma sendEmailWithTemplate_requires_template_witness :
  let raw : gmap string jsval :=
    {[ "to" := JStr "jane@example.com";
       "templateModel" := JObj {[ "name" := JStr "Jane" ]};
       "trackOpens" := JBool true; "trackLinks" := JStr "HtmlAndText" ]} in
  Mcp.call Legacy.sendEmailWithTemplate.tool raw sample_upstream = ([], Mcp.InvalidParams)
  /\ Mcp.call Tracking.sendEmailWithTemplate.tool raw sample_upstream
     = ([], Mcp.Rejected
              (Js.new_Error "Either templateId or templateAlias must be provided."))
  /\ Mcp.call Guarded.sendEmailWithTemplate.tool raw sample_upstream
     = ([], Mcp.Fulfilled
              {| Mcp.content :=
                   [Mcp.text_content
                      "Failed to send template email: Either templateId or templateAlias must be provided."] |}).
Proof.
  intros raw.
  destruct (sendEmailWithTemplate_requires_template raw sample_upstream eq_refl eq_refl)
    as (Hlegacy & Htracking & Hguarded).
  split; [exact Hlegacy|]. split; [exact Htracking | exact Hguarded].
Defined.

(** ** Pagination defaults *)

Section Pagination.
Context `{rt : Js.Builtins}.

Lemma getOutboundMessages_schema_missing (raw : gmap string jsval) :
  raw !! "count" = None -> raw !! "offset" = None ->
  Shared.getOutboundMessages.inputSchema raw
  = Some {| Shared.getOutboundMessages.count := None;
            Shared.getOutboundMessages.offset := None |}.
Proof.
  intros Hc Ho. unfold Shared.getOutboundMessages.inputSchema. by rewrite Hc, Ho.
Qed.

Lemma getOutboundMessages_schema_explicit (raw : gmap string jsval) :
  Shared.getOutboundMessages.inputSchema
    (<["count" := JNum (Js.of_Z 10)]> (<["offset" := JNum (Js.of_Z 0)]> raw))
  = Some {| Shared.getOutboundMessages.count := Some (Js.of_Z 10);
            Shared.getOutboundMessages.offset := Some (Js.of_Z 0) |}.
Proof.
  unfold Shared.getOutboundMessages.inputSchema.
  rewrite lookup_insert_eq, lookup_insert_ne, lookup_insert_eq by done.
  reflexivity.
Qed.

(** C8. A call of [getOutboundMessages] without [count] and without
    [offset] issues the request and gives the result of the same call with
    [count = 10] and [offset = 0]: the request is
    [getOutboundMessages({count: 10, offset: 0})]. *)
Theorem getOutboundMessages_defaults (raw : gmap string jsval) (up : Mcp.Upstream) :
  raw !! "count" = None ->
  raw !! "offset" = None ->
  Mcp.call Shared.getOutboundMessages.tool raw up
  = Mcp.call Shared.getOutboundMessages.tool
      (<["count" := JNum (Js.of_Z 10)]> (<["offset" := JNum (Js.of_Z 0)]> raw)) up
  /\ (Mcp.call Shared.getOutboundMessages.tool raw up).1
     = [Mcp.getOutboundMessages
          {[ "count" := JNum (Js.of_Z 10); "offset" := JNum (Js.of_Z 0) ]}].
Proof.
  intros Hc Ho. unfold Mcp.call; simpl.
  rewrite (getOutboundMessages_schema_missing raw Hc Ho).
  rewrite getOutboundMessages_schema_explicit. split; [reflexivity|].
  simpl. apply issued_await. auto with runs.
Qed.

End Pagination.

(** The call with no argument at all, against the sample provider. *)
Lemma getOutboundMessages_defaults_witness :
  Mcp.call Shared.getOutboundMessages.tool ∅ sample_upstream
  = Mcp.call Shared.getOutboundMessages.tool
      {[ "count" := JNum (Js.of_Z 10); "offset" := JNum (Js.of_Z 0) ]} sample_upstream
  /\ (Mcp.call Shared.getOutboundMessages.tool ∅ sample_upstream).1
     = [Mcp.getOutboundMessages
          {[ "count" := JNum (Js.of_Z 10); "offset" := JNum (Js.of_Z 0) ]}].
Proof.
  exact (getOutboundMessages_defaults ∅ sample_upstream eq_refl eq_refl).
Defined.

(** ** Start-up *)

Section StartUp.

Lemma config_unset env p :
  Startup.unset (env !! "POSTMARK_SERVER_TOKEN") = true
  \/ Startup.unset (env !! "DEFAULT_SENDER_EMAIL") = true
  \/ Startup.unset (env !! "DEFAULT_MESSAGE_STREAM") = true ->
  exists e, Startup.config env p = (p, inl e).
Proof.
  unfold Startup.config, Startup.throw.
  intros [Hu | [Hu | Hu]];
    repeat match goal with |- context [if ?b then _ else _] => destruct b end;
    try discriminate; eauto.
Qed.

Lemma unset_missing_or_empty (v : option string) :
  v = None \/ v = Some EmptyString -> Startup.unset v = true.
Proof. by intros [-> | ->]. Qed.

(** C7. When one of the three settings is missing from the environment or
    empty, the module body throws at its head, whatever tools the revision
    goes on to register: the process ends in its initial state, with no
    tool registered and no transport connected. *)
Theorem startup_requires_configuration
    (registrations : Config -> list (string * Mcp.Tool)) (env : gmap string string)
    (k : string) :
  k ∈ ["POSTMARK_SERVER_TOKEN"; "DEFAULT_SENDER_EMAIL"; "DEFAULT_MESSAGE_STREAM"] ->
  env !! k = None \/ env !! k = Some EmptyString ->
  exists e,
    Startup.run registrations env = (Startup.initial, inl e)
    /\ Startup.tools (Startup.run registrations env).1 = ∅
    /\ Startup.connected (Startup.run registrations env).1 = false.
Proof.
  intros Hk Hv. apply unset_missing_or_empty in Hv.
  destruct (config_unset env Startup.initial) as [e He].
  { rewrite !elem_of_cons, elem_of_nil in Hk.
    destruct Hk as [-> | [-> | [-> | []]]]; auto. }
  exists e. unfold Startup.run, Startup.main, mbind, Startup.Init_bind, Startup.bind.
  by rewrite He.
Qed.

End StartUp.

(** The tools of [postmark-mcp-server.js] in an environment whose sender
    address is set to the empty string. *)
Lemma startup_requires_configuration_witness :
  exists e,
    Startup.run Legacy.registrations
      {[ "POSTMARK_SERVER_TOKEN" := "token"; "DEFAULT_SENDER_EMAIL" := "";
         "DEFAULT_MESSAGE_STREAM" := "outbound" ]}
    = (Startup.initial, inl e)
    /\ Startup.tools
         (Startup.run Legacy.registrations
            {[ "POSTMARK_SERVER_TOKEN" := "token"; "DEFAULT_SENDER_EMAIL" := "";
               "DEFAULT_MESSAGE_STREAM" := "outbound" ]}).1 = ∅
    /\ Startup.connected
         (Startup.run Legacy.registrations
            {[ "POSTMARK_SERVER_TOKEN" := "token"; "DEFAULT_SENDER_EMAIL" := "";
               "DEFAULT_MESSAGE_STREAM" := "outbound" ]}).1 = false.
Proof.
  apply (startup_requires_configuration Legacy.registrations
           {[ "POSTMARK_SERVER_TOKEN" := "token"; "DEFAULT_SENDER_EMAIL" := "";
              "DEFAULT_MESSAGE_STREAM" := "outbound" ]} "DEFAULT_SENDER_EMAIL").
  - apply list_elem_of_further, list_elem_of_here.
  - right. reflexivity.
Defined.

(** With the three settings in place the same module body runs to its end:
    the five tools of the catching revision are registered and the server
    is connected. *)
Example startup_serves :
  let p := Startup.run Guarded.registrations
             {[ "POSTMARK_SERVER_TOKEN" := "token";
                "DEFAULT_SENDER_EMAIL" := "info@x.com";
                "DEFAULT_MESSAGE_STREAM" := "outbound" ]} in
  p.2 = inr tt
  /\ Startup.connected p.1 = true
  /\ elements (dom (Startup.tools p.1))
     ≡ₚ ["sendEmail"; "sendEmailWithTemplate"; "listTemplates"; "getDeliveryStats";
         "getOutboundMessages"].
Proof.
  split; [reflexivity|]. split; [reflexivity|].
  vm_compute elements. by apply (bool_decide_unpack _).
Qed.

(** ** The scenario of a single message *)

Section Scenario.
Context `{rt : Js.Builtins} `{fmt : z.Formats}.

Lemma sendEmail_outcome_sent payload o id (up : Mcp.Upstream) :
  up (Mcp.sendEmail payload) = inr (JObj o) ->
  o !! "MessageID" = Some (JStr id) ->
  Mcp.outcome
    ((result ← Mcp.await (Mcp.sendEmail payload);
      x ← Mcp.get "MessageID" result;
      Mcp.reply ("Email sent! MessageID: " +:+ Js.interpolate x)) up)
  = inr {| Mcp.content := [Mcp.text_content ("Email sent! MessageID: " +:+ id)] |}.
Proof.
  intros Hup Hid. rewrite outcome_await. simpl. rewrite Hup. by apply outcome_identified.
Qed.

(** C6 (amended). With the default sender [info@x.com] and the default
    stream [outbound], the call [sendEmail({to: "a@b.com", subject: "S",
    textBody: "B"})] of [postmark-mcp-server.js] issues exactly the request
    [{From: "info@x.com", To: "a@b.com", Subject: "S", TextBody: "B",
    MessageStream: "outbound"}]; in the revision with tracking the call must
    also carry [trackOpens: true] and [trackLinks: "HtmlAndText"], and the
    request is the same with [TrackOpens: true] and [TrackLinks:
    "HtmlAndText"] added. In both, when the provider answers with a message
    identifier, the result is the text [Email sent! MessageID: ] followed by
    that identifier. *)
Theorem sendEmail_scenario (token : string) (up : Mcp.Upstream) :
  z.isEmail "a@b.com" = true ->
  (Mcp.call (Legacy.sendEmail.tool (cfg := scenario_config token)) scenario_arguments up).1
  = [Mcp.sendEmail scenario_request]
  /\ (forall o id,
        up (Mcp.sendEmail scenario_request) = inr (JObj o) ->
        o !! "MessageID" = Some (JStr id) ->
        (Mcp.call (Legacy.sendEmail.tool (cfg := scenario_config token))
           scenario_arguments up).2 = sent id)
  /\ (Mcp.call (Tracking.sendEmail.tool (cfg := scenario_config token))
        scenario_arguments_tracking up).1
     = [Mcp.sendEmail scenario_request_tracking]
  /\ (forall o id,
        up (Mcp.sendEmail scenario_request_tracking) = inr (JObj o) ->
        o !! "MessageID" = Some (JStr id) ->
        (Mcp.call (Tracking.sendEmail.tool (cfg := scenario_config token))
           scenario_arguments_tracking up).2 = sent id).
Proof.
  intros Hemail.
  assert (Hl : Legacy.sendEmail.inputSchema scenario_arguments
               = Some {| Legacy.sendEmail.to := "a@b.com";
                         Legacy.sendEmail.subject := "S";
                         Legacy.sendEmail.textBody := "B";
                         Legacy.sendEmail.from := None;
                         Legacy.sendEmail.messageStream := None |}).
  { unfold Legacy.sendEmail.inputSchema, z.email. lookups. simpl. by rewrite Hemail. }
  assert (Ht : Tracking.sendEmail.inputSchema scenario_arguments_tracking
               = Some {| Tracking.sendEmail.from := None;
                         Tracking.sendEmail.to := "a@b.com";
                         Tracking.sendEmail.subject := "S";
                         Tracking.sendEmail.textBody := "B";
                         Tracking.sendEmail.messageStream := None;
                         Tracking.sendEmail.tag := None |}).
  { unfold Tracking.sendEmail.inputSchema, z.email. lookups. simpl. by rewrite Hemail. }
  unfold Mcp.call; simpl. rewrite Hl, Ht. simpl. repeat split.
  - rewrite legacy_sendEmail_issued. reflexivity.
  - intros o id Hup Hid. unfold sent. f_equal.
    pose proof (sendEmail_outcome_sent scenario_request o id up Hup Hid) as Hs.
    unfold Legacy.sendEmail.handler. simpl.
    change (Legacy.sendEmail.payload _) with scenario_request.
    by rewrite Hs.
  - rewrite tracking_sendEmail_issued. reflexivity.
  - intros o id Hup Hid. unfold sent. f_equal.
    pose proof (sendEmail_outcome_sent scenario_request_tracking o id up Hup Hid) as Hs.
    unfold Tracking.sendEmail.handler. simpl.
    change (Tracking.sendEmail.payload _) with scenario_request_tracking.
    by rewrite Hs.
Qed.

End Scenario.

(** The scenario against the sample provider. *)
Lemma sendEmail_scenario_witness :
  (Mcp.call (Legacy.sendEmail.tool (cfg := scenario_config "token"))
     scenario_arguments sample_upstream).1 = [Mcp.sendEmail scenario_request]
  /\ (Mcp.call (Legacy.sendEmail.tool (cfg := scenario_config "token"))
        scenario_arguments sample_upstream).2
     = sent "b7bc2f4a-e38e-4336-af7d-e6c392c2f817"
  /\ (Mcp.call (Tracking.sendEmail.tool (cfg := scenario_config "token"))
        scenario_arguments_tracking sample_upstream).1
     = [Mcp.sendEmail scenario_request_tracking]
  /\ (Mcp.call (Tracking.sendEmail.tool (cfg := scenario_config "token"))
        scenario_arguments_tracking sample_upstream).2
     = sent "b7bc2f4a-e38e-4336-af7d-e6c392c2f817".
Proof.
  destruct (sendEmail_scenario "token" sample_upstream)
    as (Hreq & Hres & Hreq' & Hres'); [reflexivity|].
  split; [exact Hreq|]. split; [|split; [exact Hreq'|]].
  - exact (Hres _ _ eq_refl eq_refl).
  - exact (Hres' _ _ eq_refl eq_refl).
Defined.

(** C6 as stated fails in the revision with tracking: the call of the
    scenario lacks the two literals, the schema refuses it, and no request
    is issued; and the request of that revision has two properties that the
    request of the scenario lacks. *)
Lemma sendEmail_scenario_counterexample :
  z.isEmail "a@b.com" = true
  /\ Mcp.call (Tracking.sendEmail.tool (cfg := scenario_config "token"))
       scenario_arguments sample_upstream = ([], Mcp.InvalidParams)
  /\ scenario_request !! "TrackOpens" = None
  /\ scenario_request_tracking !! "TrackOpens" = Some (JBool true)
  /\ scenario_request !! "TrackLinks" = None
  /\ scenario_request_tracking !! "TrackLinks" = Some (JStr "HtmlAndText").
Proof. vm_compute. repeat split. Qed.

(** ** Tracking literals and tags *)

Section TrackingLiterals.
Context `{cfg : Config} `{rt : Js.Builtins} `{fmt : z.Formats}.









(** The requests of the template body: none, or one with the identified
    and tagged payload. *)
Lemma template_body_issued a up :
  Mcp.issued (Tracking.sendEmailWithTemplate.body a up) = []
  \/ exists p,
       Mcp.outcome (Tracking.sendEmailWithTemplate.identified a
                      (Tracking.sendEmailWithTemplate.base a) up) = inr p
       /\ Mcp.issued (Tracking.sendEmailWithTemplate.body a up)
          = [Mcp.sendEmailWithTemplate (Tracking.sendEmailWithTemplate.tagged a p)].
Proof.
  unfold Tracking.sendEmailWithTemplate.body, Tracking.sendEmailWithTemplate.identified.
  destruct (Js.when_truthy_number _); [|destruct (Js.when_truthy _)].
  - right. eexists. split; [done|].
    unfold mbind at 1, Mcp.Eff_bind, Mcp.bind. simpl.
    apply issued_await. auto with runs.
  - right. eexists. split; [done|].
    unfold mbind at 1, Mcp.Eff_bind, Mcp.bind. simpl.
    apply issued_await. auto with runs.
  - by left.
Qed.

End TrackingLiterals.

Section TrackingInvariant.
Context `{cfg : Config} `{rt : Js.Builtins} `{fmt : z.Formats}.


End TrackingInvariant.


(** ** Failures *)

Section Failures.
Context `{cfg : Config} `{rt : Js.Builtins} `{fmt : z.Formats}.

Lemma message_of_reports prefix e :
  reports prefix e
    {| Mcp.content := [Mcp.text_content (prefix +:+ Guarded.message_of e)] |}.
Proof.
  exists (Guarded.message_of e). split; [done|]. unfold Guarded.message_of. split.
  - intros msg -> Hne. by apply or_string_supplied.
  - intros Hm. by apply or_string_default.
Qed.

(** A failed request fails the handler that awaits it. *)
Lemma outcome_await_failed {A B} (m : Mcp.Eff A) (k : A -> Mcp.Eff B) up e :
  Mcp.outcome (m up) = inl e -> Mcp.outcome ((m ≫= k) up) = inl e.
Proof. intros Hup. by rewrite outcome_await, Hup. Qed.

Lemma template_body_failed a up p e :
  Mcp.outcome (Tracking.sendEmailWithTemplate.identified a
                 (Tracking.sendEmailWithTemplate.base a) up) = inr p ->
  up (Mcp.sendEmailWithTemplate (Tracking.sendEmailWithTemplate.tagged a p)) = inl e ->
  Mcp.outcome (Tracking.sendEmailWithTemplate.body a up) = inl e.
Proof.
  intros Hp Hup. unfold Tracking.sendEmailWithTemplate.body.
  unfold mbind at 1, Mcp.Eff_bind, Mcp.bind. rewrite Hp.
  simpl. by apply outcome_await_failed.
Qed.

(** C5 (amended). In the revision that catches, a failure raised inside the
    handler of [sendEmail] or of [sendEmailWithTemplate], a failed provider
    call included, never leaves the handler: the call is fulfilled with one
    text, [Failed to send email: ] or [Failed to send template email: ]
    followed by the message of the failure, or by [Unknown error] when the
    failure has no message or an empty one. A failure of the request of
    [getDeliveryStats], or of reading the body of its response, is fulfilled
    with [Error fetching delivery stats: ] followed by the failure rendered
    by [toString]. *)
Theorem guarded_handlers_report_failures
    (a : Tracking.sendEmail.args) (b : Tracking.sendEmailWithTemplate.args)
    (params : Tracking.getDeliveryStats.args) (up : Mcp.Upstream) (e : Js.Error) :
  (Mcp.outcome (Tracking.sendEmail.handler a up) = inl e ->
     exists r, Mcp.outcome (Guarded.sendEmail.handler a up) = inr r
               /\ reports "Failed to send email: " e r)
  /\ (up (Mcp.sendEmail (Tracking.sendEmail.payload a)) = inl e ->
      Mcp.outcome (Tracking.sendEmail.handler a up) = inl e)
  /\ (Mcp.outcome (Tracking.sendEmailWithTemplate.body b up) = inl e ->
      exists r, Mcp.outcome (Guarded.sendEmailWithTemplate.handler b up) = inr r
                /\ reports "Failed to send template email: " e r)
  /\ (forall p,
        Mcp.outcome (Tracking.sendEmailWithTemplate.identified b
                       (Tracking.sendEmailWithTemplate.base b) up) = inr p ->
        up (Mcp.sendEmailWithTemplate (Tracking.sendEmailWithTemplate.tagged b p)) = inl e ->
        Mcp.outcome (Tracking.sendEmailWithTemplate.body b up) = inl e)
  /\ (up (Mcp.fetch (Tracking.getDeliveryStats.url params) Tracking.getDeliveryStats.headers)
      = inl e ->
      Mcp.outcome (Guarded.getDeliveryStats.handler params up)
      = inr {| Mcp.content :=
                 [Mcp.text_content
                    ("Error fetching delivery stats: " +:+ Js.Error_toString e)] |})
  /\ (forall response e',
        up (Mcp.fetch (Tracking.getDeliveryStats.url params)
              Tracking.getDeliveryStats.headers) = inr response ->
        Mcp.json response = inl e' ->
        Mcp.outcome (Guarded.getDeliveryStats.handler params up)
        = inr {| Mcp.content :=
                   [Mcp.text_content
                      ("Error fetching delivery stats: " +:+ Js.Error_toString e')] |})
  /\ (exists r, Mcp.outcome (Guarded.sendEmail.handler a up) = inr r)
  /\ (exists r, Mcp.outcome (Guarded.sendEmailWithTemplate.handler b up) = inr r)
  /\ (exists r, Mcp.outcome (Guarded.getDeliveryStats.handler params up) = inr r).
Proof.
  repeat split.
  - intros He. unfold Guarded.sendEmail.handler. rewrite outcome_try_catch, He.
    eexists. split; [done|]. apply message_of_reports.
  - intros Hup. by apply outcome_await_failed.
  - intros He. unfold Guarded.sendEmailWithTemplate.handler.
    rewrite outcome_try_catch, He. eexists. split; [done|]. apply message_of_reports.
  - intros p Hp Hup. by eapply template_body_failed.
  - intros Hup. unfold Guarded.getDeliveryStats.handler, Tracking.getDeliveryStats.handler.
    rewrite outcome_try_catch, outcome_await. simpl. by rewrite Hup.
  - intros response e' Hup Hjson.
    unfold Guarded.getDeliveryStats.handler, Tracking.getDeliveryStats.handler.
    rewrite outcome_try_catch, outcome_await. simpl. rewrite Hup.
    rewrite outcome_await. simpl. by rewrite Hjson.
  - unfold Guarded.sendEmail.handler. rewrite outcome_try_catch.
    destruct (Mcp.outcome _); eauto.
  - unfold Guarded.sendEmailWithTemplate.handler. rewrite outcome_try_catch.
    destruct (Mcp.outcome _); eauto.
  - unfold Guarded.getDeliveryStats.handler, Tracking.getDeliveryStats.handler.
    rewrite outcome_try_catch. destruct (Mcp.outcome _); eauto.
Qed.

End Failures.

(** The three catching handlers against a provider that is down. *)
Lemma guarded_handlers_report_failures_witness :
  (exists r, Mcp.outcome (Guarded.sendEmail.handler scenario_parsed failing_upstream) = inr r
             /\ reports "Failed to send email: " refused r)
  /\ (exists r,
        Mcp.outcome (Guarded.sendEmailWithTemplate.handler template_parsed failing_upstream)
        = inr r
        /\ reports "Failed to send template email: " refused r)
  /\ Mcp.outcome (Guarded.getDeliveryStats.handler no_filter failing_upstream)
     = inr {| Mcp.content :=
                [Mcp.text_content
                   "Error fetching delivery stats: Error: connect ECONNREFUSED"] |}.
Proof.
  destruct (guarded_handlers_report_failures scenario_parsed template_parsed no_filter
              failing_upstream refused)
    as (Hsend & Hup & Htemplate & Hup' & Hstats & _).
  split; [|split].
  - apply Hsend, Hup. reflexivity.
  - apply Htemplate. eapply Hup'; reflexivity.
  - apply Hstats. reflexivity.
Defined.

(** C5 as stated fails for the handlers that do not catch: against a
    provider that is down, [getOutboundMessages] and [listTemplates], both
    registered by the revision that catches, and the [sendEmail] of the
    revision with tracking end rejected with the provider's error, not
    fulfilled with a prefixed text. *)
Lemma uncaught_failure_counterexample :
  Guarded.registrations sample_config !! 4%nat
  = Some ("getOutboundMessages", Shared.getOutboundMessages.tool)
  /\ Mcp.call Shared.getOutboundMessages.tool ∅ failing_upstream
     = ([Mcp.getOutboundMessages
           {[ "count" := JNum (Js.of_Z 10); "offset" := JNum (Js.of_Z 0) ]}],
        Mcp.Rejected refused)
  /\ Guarded.registrations sample_config !! 2%nat
     = Some ("listTemplates", Shared.listTemplates.tool)
  /\ Mcp.call Shared.listTemplates.tool ∅ failing_upstream
     = ([Mcp.getTemplates], Mcp.Rejected refused)
  /\ Mcp.call Tracking.sendEmail.tool scenario_arguments_tracking failing_upstream
     = ([Mcp.sendEmail scenario_request_tracking], Mcp.Rejected refused).
Proof. repeat split. Qed.

(** ** Binary64 rounding: the mantissa of a rounded quantity *)

Section Rounding.
Variables prec emax : Z.












End Rounding.

(** ** Delivery rates: the arithmetic *)

Section RateArithmetic.










End RateArithmetic.

Section RateRendering.
Context `{rt : Js.Builtins}.







End RateRendering.

(** ** Delivery rates: the handler *)

Section Rates.
Context `{rt : Js.Builtins}.



(** The text of the handler on a response whose body is an object: the
    summary of its five properties. *)
Lemma getDeliveryStats_summary `{cfg : Config} params (up : Mcp.Upstream) response o :
  up (Mcp.fetch (Tracking.getDeliveryStats.url params) Tracking.getDeliveryStats.headers)
  = inr response ->
  Mcp.json response = inr (JObj o) ->
  Mcp.outcome (Tracking.getDeliveryStats.handler params up)
  = inr {| Mcp.content :=
             [Mcp.text_content
                (Tracking.getDeliveryStats.rendered
                   (Tracking.getDeliveryStats.summarize (o !! "Sent") (o !! "Tracked")
                      (o !! "UniqueOpens") (o !! "TotalTrackedLinksSent")
                      (o !! "UniqueLinksClicked")))] |}.
Proof.
  intros Hup Hjson. unfold Tracking.getDeliveryStats.handler.
  rewrite outcome_try_catch, outcome_await. simpl. rewrite Hup.
  rewrite outcome_await. simpl. by rewrite Hjson.
Qed.







End Rates.

Section RateClaims.
Context `{cfg : Config} `{rt : Js.Builtins}.







End RateClaims.





(** The scenario evaluated: sixty opens out of fifty tracked messages are
    capped at [100.0], and no tracked link gives [0.0]; without the cap the
    rate would read [120.0]. *)
Example delivery_rates_scenario :
  Mcp.call Tracking.getDeliveryStats.tool ∅
    (responding true 200 "OK"
       (JObj {[ "Sent" := JNum (Js.of_Z 100); "Tracked" := JNum (Js.of_Z 50);
                "UniqueOpens" := JNum (Js.of_Z 60);
                "TotalTrackedLinksSent" := JNum (Js.of_Z 0);
                "UniqueLinksClicked" := JNum (Js.of_Z 0) ]}))
  = ([Mcp.fetch "https://api.postmarkapp.com/stats/outbound"
        {[ "Accept" := "application/json"; "X-Postmark-Server-Token" := "token" ]}],
     Mcp.Fulfilled
       {| Mcp.content :=
            [Mcp.text_content
               ("You sent 100 emails in the selected period." +:+ Js.newline
                +:+ "Out of 50 emails with open tracking, 100.0% were opened."
                +:+ Js.newline
                +:+ "Out of 0 tracked links, 0 unique links were clicked (0.0%).")] |})
  /\ Js.toFixed 1 (Js.mul (Js.div (Js.of_Z 60) (Js.of_Z 50)) (Js.of_Z 100)) = "120.0".
Proof. vm_compute. split; reflexivity. Qed.

(** * Further properties of the handlers *)

(** ** One request, one text *)

Section Frugality.
Context `{cfg : Config} `{rt : Js.Builtins} `{fmt : z.Formats}.

Lemma frugal_silent {A} (m : Mcp.Eff A) : silent m -> frugal m.
Proof. intros Hm up. rewrite Hm. simpl. lia. Qed.

Lemma frugal_await r : frugal (Mcp.await r).
Proof. intros up. simpl. lia. Qed.

Lemma frugal_bind {A B} (m : Mcp.Eff A) (k : A -> Mcp.Eff B) :
  frugal m -> (forall a, silent (k a)) -> frugal (m ≫= k).
Proof. intros Hm Hk up. rewrite issued_await by done. apply Hm. Qed.

Lemma frugal_then {A B} (m : Mcp.Eff A) (k : A -> Mcp.Eff B) :
  silent m -> (forall a, frugal (k a)) -> frugal (m ≫= k).
Proof.
  intros Hm Hk up. unfold mbind, Mcp.Eff_bind, Mcp.bind.
  destruct (Mcp.outcome (m up)); simpl; rewrite Hm; simpl; [lia|]. apply Hk.
Qed.

Lemma frugal_try_catch {A} (body : Mcp.Eff A) h :
  frugal body -> (forall e, silent (h e)) -> frugal (Mcp.try_catch body h).
Proof. intros Hb Hh up. rewrite issued_try_catch by done. apply Hb. Qed.

Lemma texts_reply t : texts (Mcp.reply t).
Proof.
  intros up r [= <-]. split; [done|]. by repeat constructor.
Qed.

Lemma texts_throw e : texts (Mcp.throw e).
Proof. by intros up r. Qed.

Lemma texts_bind {A} (m : Mcp.Eff A) (k : A -> Mcp.Eff Mcp.ToolResult) :
  (forall a, texts (k a)) -> texts (m ≫= k).
Proof.
  intros Hk up r. rewrite outcome_await. destruct (Mcp.outcome (m up)); [done|].
  apply Hk.
Qed.

Lemma texts_try_catch (body : Mcp.Eff Mcp.ToolResult) h :
  texts body -> (forall e, texts (h e)) -> texts (Mcp.try_catch body h).
Proof.
  intros Hb Hh up r. unfold Mcp.try_catch.
  destruct (Mcp.outcome (body up)) eqn:E; simpl; [apply Hh|].
  rewrite E. intros [= <-]. by apply (Hb up).
Qed.

End Frugality.

Section OneRequestOneText.
Context `{rt : Js.Builtins} `{fmt : z.Formats} (cfg : Config).

#[local] Hint Resolve frugal_silent frugal_await frugal_bind frugal_then frugal_try_catch
  : runs.
#[local] Hint Resolve texts_reply texts_throw texts_bind texts_try_catch : runs.

Lemma template_identified_silent a p :
  silent (Tracking.sendEmailWithTemplate.identified a p).
Proof.
  unfold Tracking.sendEmailWithTemplate.identified.
  destruct (Js.when_truthy_number _); [|destruct (Js.when_truthy _)]; auto with runs.
Qed.

(** X1. Whatever the arguments and whatever the provider answers, a call of a
    registered tool issues one request at most: no handler retries, and none
    goes on to a second request. *)
Theorem tools_issue_one_request_at_most :
  Forall (fun nt => forall args up, (length (Mcp.call nt.2 args up).1 <= 1)%nat)
    (every_tool cfg).
Proof.
  pose proof template_identified_silent.
  unfold every_tool, Legacy.registrations, Tracking.registrations, Guarded.registrations.
  rewrite !Forall_app, !Forall_cons.
  repeat match goal with |- _ /\ _ => split end; try done.
  all: intros args up; unfold Mcp.call; simpl.
  all: try match goal with
       | |- context [match ?s with Some _ => _ | None => _ end] => destruct s as [a|]
       end; simpl; try lia.
  all: match goal with
       | |- (length (Mcp.issued (?h ?up)) <= 1)%nat => revert up; change (frugal h)
       end.
  all: do 2 (handlers;
             repeat match goal with
             | |- frugal (Mcp.try_catch _ _) => apply frugal_try_catch
             | |- frugal (Mcp.await _ ≫= _) => apply frugal_bind; [apply frugal_await|]
             | |- frugal (_ ≫= _) => apply frugal_then
             | |- silent (_ ≫= _) => apply silent_bind
             | |- silent (if ?b then _ else _) => destruct b
             | |- forall _, _ => intros
             end; auto with runs).
Qed.

(** X2. A call that is fulfilled is fulfilled with at least one item of
    content, and every item has the type [text]. *)
Theorem tools_fulfil_with_text :
  Forall (fun nt => forall args up r,
            (Mcp.call nt.2 args up).2 = Mcp.Fulfilled r -> well_formed r)
    (every_tool cfg).
Proof.
  unfold every_tool, Legacy.registrations, Tracking.registrations, Guarded.registrations.
  rewrite !Forall_app, !Forall_cons.
  repeat match goal with |- _ /\ _ => split end; try done.
  all: intros args up r; unfold Mcp.call; simpl.
  all: try match goal with
       | |- context [match ?s with Some _ => _ | None => _ end] =>
           destruct s as [a|]; [|discriminate]
       end; simpl.
  all: match goal with
       | |- context [Mcp.outcome (?h ?u)] =>
           let E := fresh "E" in
           destruct (Mcp.outcome (h u)) as [e|res] eqn:E; intros [= <-]; revert res E;
           revert u; change (texts h)
       end.
  all: do 2 (handlers;
             repeat match goal with
             | |- texts (Mcp.try_catch _ _) => apply texts_try_catch
             | |- texts (_ ≫= _) => apply texts_bind
             | |- forall _, _ => intros
             end; auto using texts_reply, texts_throw).
  intros up r [= <-]. split; [done|]. by repeat constructor.
Qed.

End OneRequestOneText.

(** ** Start-up with a full configuration *)

Section Serving.
Import (hints) Startup.





Lemma unset_present v : present v -> Startup.unset v = false.
Proof. intros (s & -> & Hs). by destruct s. Qed.

(** X4. The checks run in the order token, sender, stream, and the first
    variable that is missing or empty is the one the error names: a later one
    is never reported while an earlier one is not set. *)
Theorem startup_names_first_unset
    (registrations : Config -> list (string * Mcp.Tool)) (env : gmap string string) :
  (missing (env !! "POSTMARK_SERVER_TOKEN") ->
   Startup.run registrations env = (Startup.initial, inl (not_set "POSTMARK_SERVER_TOKEN")))
  /\ (present (env !! "POSTMARK_SERVER_TOKEN") ->
      missing (env !! "DEFAULT_SENDER_EMAIL") ->
      Startup.run registrations env
      = (Startup.initial, inl (not_set "DEFAULT_SENDER_EMAIL")))
  /\ (present (env !! "POSTMARK_SERVER_TOKEN") ->
      present (env !! "DEFAULT_SENDER_EMAIL") ->
      missing (env !! "DEFAULT_MESSAGE_STREAM") ->
      Startup.run registrations env
      = (Startup.initial, inl (not_set "DEFAULT_MESSAGE_STREAM"))).
Proof.
  unfold Startup.run, Startup.main, mbind, Startup.Init_bind, Startup.bind, Startup.config.
  split; [|split].
  - intros Ht. by rewrite (unset_missing_or_empty _ Ht).
  - intros Ht Hs. by rewrite (unset_present _ Ht), (unset_missing_or_empty _ Hs).
  - intros Ht Hs Hm.
    by rewrite (unset_present _ Ht), (unset_present _ Hs), (unset_missing_or_empty _ Hm).
Qed.

End Serving.


(** ** Arguments outside the shape *)

Section Shapes.
Context `{rt : Js.Builtins} `{fmt : z.Formats} (cfg : Config).

(** X5. An argument under a key that the shape of the tool does not declare is
    dropped before the handler runs: with it or without it, the call issues
    the same requests and ends the same way. This holds for every tool of
    every revision. *)
Theorem undeclared_arguments_are_dropped :
  shaped (Legacy.registrations cfg) legacy_shapes
  /\ shaped (Tracking.registrations cfg) tracking_shapes
  /\ shaped (Guarded.registrations cfg) guarded_shapes.
Proof.
  unfold shaped, Legacy.registrations, Tracking.registrations, Guarded.registrations,
    legacy_shapes, tracking_shapes, guarded_shapes, shared_shapes, domain_shapes.
  simpl app.
  split; [|split]; repeat (constructor; [split; [reflexivity|]|]); try by constructor.
  all: unfold reads_only; simpl; intros k v args up Hk.
  all: rewrite ?not_elem_of_cons in Hk; destruct_and?.
  all: unfold Mcp.call; simpl.
  all: unfold Legacy.sendEmail.inputSchema, Legacy.sendEmailBatch.inputSchema,
         Legacy.sendEmailWithTemplate.inputSchema, Legacy.getDeliveryStats.inputSchema,
         Tracking.sendEmail.inputSchema, Tracking.sendEmailBatch.inputSchema,
         Tracking.sendEmailWithTemplate.inputSchema, Tracking.getDeliveryStats.inputSchema,
         Guarded.sendEmail.inputSchema, Guarded.sendEmailWithTemplate.inputSchema,
         Guarded.getDeliveryStats.inputSchema,
         Tracking.sendEmail.inputSchema, Tracking.sendEmailWithTemplate.inputSchema,
         Shared.createTemplate.inputSchema, Shared.updateTemplate.inputSchema,
         Shared.listTemplates.inputSchema, Shared.getTemplate.inputSchema,
         Shared.getOutboundMessages.inputSchema, Shared.createDomain.inputSchema,
         Shared.verifyDomain.inputSchema.
  all: by rewrite ?lookup_insert_ne by done.
Qed.

End Shapes.

(** ** Required arguments *)

Section Required.
Context `{cfg : Config} `{rt : Js.Builtins} `{fmt : z.Formats}.

Lemma string_refuses v : (forall s, v <> Some (JStr s)) -> z.string v = None.
Proof. intros Hv. destruct v as [[]|]; try done. by destruct (Hv s). Qed.

Lemma email_refuses v :
  (forall s, v <> Some (JStr s)) \/ (exists s, v = Some (JStr s) /\ z.isEmail s = false) ->
  z.email v = None.
Proof.
  intros [Hv | (s & -> & Hs)]; unfold z.email.
  - by rewrite string_refuses.
  - simpl. by rewrite Hs.
Qed.

(** X6. [sendEmail] asks for [to], [subject] and [textBody]: a call in which
    one of them is missing or is not a string, or whose [to] is not an
    address, is refused by validation in every revision, and nothing is sent.
    *)
Theorem sendEmail_requires_its_fields (raw : gmap string jsval) (k : string) :
  (k ∈ ["to"; "subject"; "textBody"] /\ forall s, raw !! k <> Some (JStr s))
  \/ (exists s, raw !! "to" = Some (JStr s) /\ z.isEmail s = false) ->
  refused_call Legacy.sendEmail.tool raw
  /\ refused_call Tracking.sendEmail.tool raw
  /\ refused_call Guarded.sendEmail.tool raw.
Proof.
  intros Hraw.
  assert (Hcases : z.email (raw !! "to") = None \/ z.string (raw !! "subject") = None
                   \/ z.string (raw !! "textBody") = None).
  { destruct Hraw as [[Hk Hv] | Hto].
    - rewrite !elem_of_cons, elem_of_nil in Hk.
      destruct Hk as [-> | [-> | [-> | []]]].
      + left. apply email_refuses. by left.
      + right. left. by apply string_refuses.
      + right. right. by apply string_refuses.
    - left. apply email_refuses. by right. }
  unfold refused_call, Mcp.call. simpl.
  unfold Guarded.sendEmail.inputSchema, Legacy.sendEmail.inputSchema,
    Tracking.sendEmail.inputSchema.
  destruct Hcases as [H | [H | H]]; rewrite H; simpl;
    repeat split; intros up;
    repeat match goal with
    | |- context [mbind _ ?m] => destruct m; simpl
    end; reflexivity.
Qed.

End Required.

(** A call without a recipient. *)
Lemma sendEmail_requires_its_fields_witness :
  refused_call Legacy.sendEmail.tool no_recipient
  /\ refused_call Tracking.sendEmail.tool no_recipient
  /\ refused_call Guarded.sendEmail.tool no_recipient.
Proof.
  apply (sendEmail_requires_its_fields no_recipient "to").
  left. split; [apply list_elem_of_here|]. intros s. discriminate.
Defined.

(** ** What [try]/[catch] leaves alone *)

Section Wrapping.
Context `{cfg : Config} `{rt : Js.Builtins} `{fmt : z.Formats}.

(** X7. The handlers that catch issue the requests of the handlers they wrap,
    and a call that the unwrapped handler fulfils is fulfilled with the same
    result: catching changes the outcome of failures only. *)
Theorem catching_preserves_success
    (a : Tracking.sendEmail.args) (b : Tracking.sendEmailWithTemplate.args)
    (up : Mcp.Upstream) :
  Mcp.issued (Guarded.sendEmail.handler a up) = Mcp.issued (Tracking.sendEmail.handler a up)
  /\ (forall r, Mcp.outcome (Tracking.sendEmail.handler a up) = inr r ->
                Mcp.outcome (Guarded.sendEmail.handler a up) = inr r)
  /\ Mcp.issued (Guarded.sendEmailWithTemplate.handler b up)
     = Mcp.issued (Tracking.sendEmailWithTemplate.handler b up)
  /\ (forall r, Mcp.outcome (Tracking.sendEmailWithTemplate.handler b up) = inr r ->
                Mcp.outcome (Guarded.sendEmailWithTemplate.handler b up) = inr r).
Proof.
  unfold Guarded.sendEmail.handler, Guarded.sendEmailWithTemplate.handler,
    Tracking.sendEmailWithTemplate.handler.
  rewrite !issued_try_catch by auto with runs. rewrite !outcome_try_catch.
  repeat split; intros r ->; reflexivity.
Qed.

End Wrapping.

(** ** The template of a template message *)

Section Identification.
Context `{cfg : Config} `{rt : Js.Builtins} `{fmt : z.Formats}.

Lemma tagged_other a p k :
  k <> "Tag" -> Tracking.sendEmailWithTemplate.tagged a p !! k = p !! k.
Proof.
  intros Hk. unfold Tracking.sendEmailWithTemplate.tagged.
  destruct (Js.when_truthy _); [destruct (Js.nonempty _)|]; try done.
  by rewrite lookup_insert_ne.
Qed.

Lemma template_call_issued raw a up :
  Tracking.sendEmailWithTemplate.inputSchema raw = Some a ->
  (Mcp.call Tracking.sendEmailWithTemplate.tool raw up).1
  = Mcp.issued (Tracking.sendEmailWithTemplate.body a up)
  /\ (Mcp.call Tracking.sendEmailWithTemplate.tool raw up).2
     = match Mcp.outcome (Tracking.sendEmailWithTemplate.body a up) with
       | inl e => Mcp.Rejected e
       | inr r => Mcp.Fulfilled r
       end.
Proof. intros Ha. unfold Mcp.call. simpl. by rewrite Ha. Qed.

(** The one request of a body whose payload was identified. *)
Lemma template_body_identified a up p :
  Tracking.sendEmailWithTemplate.identified a (Tracking.sendEmailWithTemplate.base a)
  = mret p ->
  Mcp.issued (Tracking.sendEmailWithTemplate.body a up)
  = [Mcp.sendEmailWithTemplate (Tracking.sendEmailWithTemplate.tagged a p)].
Proof.
  intros Hp. unfold Tracking.sendEmailWithTemplate.body. rewrite Hp.
  unfold mbind at 1, Mcp.Eff_bind, Mcp.bind. simpl.
  rewrite issued_await by auto with runs. reflexivity.
Qed.

(** X8. In the revision with tracking, an accepted template message is sent
    with exactly one name for its template. A [templateId] other than zero
    wins: the request carries it and no [TemplateAlias], whatever alias was
    supplied. Without such an identifier a [templateAlias] that is not empty
    is sent, and no [TemplateId]. A [templateId] of zero and an empty alias
    count as not supplied: with nothing else the handler throws and no request
    is issued. *)
Theorem template_identifier_precedence (raw : gmap string jsval) (up : Mcp.Upstream) :
  is_Some (Tracking.sendEmailWithTemplate.inputSchema raw) ->
  (forall id, raw !! "templateId" = Some (JNum id) -> Js.truthy_number id = true ->
     exists p, (Mcp.call Tracking.sendEmailWithTemplate.tool raw up).1
               = [Mcp.sendEmailWithTemplate p]
               /\ p !! "TemplateId" = Some (JNum id) /\ p !! "TemplateAlias" = None)
  /\ (forall alias, no_identifier (raw !! "templateId") ->
        raw !! "templateAlias" = Some (JStr alias) -> alias <> EmptyString ->
        exists p, (Mcp.call Tracking.sendEmailWithTemplate.tool raw up).1
                  = [Mcp.sendEmailWithTemplate p]
                  /\ p !! "TemplateAlias" = Some (JStr alias) /\ p !! "TemplateId" = None)
  /\ (no_identifier (raw !! "templateId") -> no_alias (raw !! "templateAlias") ->
      Mcp.call Tracking.sendEmailWithTemplate.tool raw up
      = ([], Mcp.Rejected
               (Js.new_Error "Either templateId or templateAlias must be provided."))).
Proof.
  intros [a Ha]. destruct (template_call_issued raw a up Ha) as [Hissued Houtcome].
  destruct (tracking_template_accepts raw a Ha) as (Hid & Halias & _).
  assert (Hnone : no_identifier (raw !! "templateId") ->
                  Js.when_truthy_number (Tracking.sendEmailWithTemplate.templateId a) = None).
  { rewrite Hid. intros [Hn | (x & Hx & Hz)];
      destruct (Tracking.sendEmailWithTemplate.templateId a); try done.
    injection Hx as ->. simpl. by rewrite Hz. }
  split; [|split].
  - intros id Hraw Ht. rewrite Hid in Hraw.
    destruct (Tracking.sendEmailWithTemplate.templateId a) as [x|] eqn:Hx;
      [|done]. injection Hraw as ->.
    eexists. rewrite Hissued. split.
    + apply template_body_identified.
      unfold Tracking.sendEmailWithTemplate.identified. rewrite Hx. simpl. by rewrite Ht.
    + by rewrite !tagged_other.
  - intros alias Hno Hraw Hne. rewrite Halias in Hraw.
    destruct (Tracking.sendEmailWithTemplate.templateAlias a) as [al|] eqn:Hal;
      [|done]. injection Hraw as ->.
    eexists. rewrite Hissued. split.
    + apply template_body_identified.
      unfold Tracking.sendEmailWithTemplate.identified. rewrite (Hnone Hno), Hal.
      by destruct alias.
    + by rewrite !tagged_other.
  - intros Hno Hna.
    assert (Hbody : Tracking.sendEmailWithTemplate.body a up
                    = Mcp.mkRun []
                        (inl (Js.new_Error
                                "Either templateId or templateAlias must be provided."))).
    { unfold Tracking.sendEmailWithTemplate.body, Tracking.sendEmailWithTemplate.identified.
      rewrite (Hnone Hno). rewrite Halias in Hna.
      destruct Hna as [Hna | Hna];
        destruct (Tracking.sendEmailWithTemplate.templateAlias a); try done.
      by injection Hna as ->. }
    rewrite (surjective_pairing (Mcp.call _ _ _)), Hissued, Houtcome. by rewrite Hbody.
Qed.

End Identification.

(** A message that names its template by identifier and by alias: the
    identifier is sent, the alias is not. *)
Lemma template_identifier_precedence_witness :
  exists p, (Mcp.call Tracking.sendEmailWithTemplate.tool twice_identified sample_upstream).1
            = [Mcp.sendEmailWithTemplate p]
            /\ p !! "TemplateId" = Some (JNum (Js.of_Z 12345))
            /\ p !! "TemplateAlias" = None.
Proof.
  destruct (template_identifier_precedence twice_identified sample_upstream)
    as (Hid & _).
  - eexists. vm_compute. reflexivity.
  - apply Hid; reflexivity.
Defined.

(** ** The model of a template message *)

Section TemplateModel.
Context `{cfg : Config} `{rt : Js.Builtins} `{fmt : z.Formats}.

Lemma passthrough_refuses v : (forall m, v <> Some (JObj m)) -> z.passthrough v = None.
Proof. intros Hv. destruct v as [[]|]; try done. by destruct (Hv o). Qed.

Lemma tracking_template_model raw a m :
  Tracking.sendEmailWithTemplate.inputSchema raw = Some a ->
  raw !! "templateModel" = Some (JObj m) ->
  Tracking.sendEmailWithTemplate.templateModel a = m.
Proof.
  unfold Tracking.sendEmailWithTemplate.inputSchema. intros Ha Hm. bind_inv Ha.
  injection Ha as <-. simpl. rewrite Hm in E2. by injection E2.
Qed.

Lemma legacy_template_model raw a m :
  Legacy.sendEmailWithTemplate.inputSchema raw = Some a ->
  raw !! "templateModel" = Some (JObj m) ->
  Legacy.sendEmailWithTemplate.templateModel a = m.
Proof.
  unfold Legacy.sendEmailWithTemplate.inputSchema. intros Ha Hm. bind_inv Ha.
  injection Ha as <-. simpl. rewrite Hm in E1. by injection E1.
Qed.

Lemma tracking_template_payload a up p :
  Mcp.sendEmailWithTemplate p ∈ Mcp.issued (Tracking.sendEmailWithTemplate.body a up) ->
  p !! "TemplateModel" = Some (JObj (Tracking.sendEmailWithTemplate.templateModel a)).
Proof.
  destruct (template_body_issued a up) as [-> | (q & Hq & ->)].
  - by intros ?%elem_of_nil.
  - intros [= ->]%list_elem_of_singleton. rewrite tagged_other by done.
    revert Hq. unfold Tracking.sendEmailWithTemplate.identified.
    destruct (Js.when_truthy_number _); [|destruct (Js.when_truthy _)]; simpl;
      try discriminate; intros [= <-]; by rewrite lookup_insert_ne.
Qed.

(** X9. [templateModel] is an object that passes through: whatever keys and
    values it holds, the request carries it unchanged as [TemplateModel], in
    every revision; and a call whose [templateModel] is missing or is not an
    object is refused by validation. *)
Theorem templateModel_passes_through (raw : gmap string jsval) (up : Mcp.Upstream) :
  (forall m p, raw !! "templateModel" = Some (JObj m) ->
     Mcp.sendEmailWithTemplate p
       ∈ (Mcp.call Legacy.sendEmailWithTemplate.tool raw up).1
         ++ (Mcp.call Tracking.sendEmailWithTemplate.tool raw up).1
         ++ (Mcp.call Guarded.sendEmailWithTemplate.tool raw up).1 ->
     p !! "TemplateModel" = Some (JObj m))
  /\ ((forall m, raw !! "templateModel" <> Some (JObj m)) ->
      refused_call Legacy.sendEmailWithTemplate.tool raw
      /\ refused_call Tracking.sendEmailWithTemplate.tool raw
      /\ refused_call Guarded.sendEmailWithTemplate.tool raw).
Proof.
  split.
  - intros m p Hm. rewrite !elem_of_app. unfold Mcp.call. simpl.
    unfold Guarded.sendEmailWithTemplate.inputSchema.
    intros [Hp | [Hp | Hp]]; revert Hp.
    + destruct (Legacy.sendEmailWithTemplate.inputSchema raw) as [a|] eqn:Ha;
        [|by intros ?%elem_of_nil].
      simpl. unfold Legacy.sendEmailWithTemplate.handler.
      rewrite issued_await by auto with runs. simpl.
      intros [= ->]%list_elem_of_singleton.
      by rewrite <- (legacy_template_model raw a m Ha Hm).
    + destruct (Tracking.sendEmailWithTemplate.inputSchema raw) as [a|] eqn:Ha;
        [|by intros ?%elem_of_nil].
      simpl. intros Hp. rewrite <- (tracking_template_model raw a m Ha Hm).
      by eapply tracking_template_payload.
    + destruct (Tracking.sendEmailWithTemplate.inputSchema raw) as [a|] eqn:Ha;
        [|by intros ?%elem_of_nil].
      simpl. unfold Guarded.sendEmailWithTemplate.handler.
      rewrite issued_try_catch by auto with runs.
      intros Hp. rewrite <- (tracking_template_model raw a m Ha Hm).
      by eapply tracking_template_payload.
  - intros Hm. apply passthrough_refuses in Hm.
    unfold refused_call, Mcp.call. simpl.
    unfold Guarded.sendEmailWithTemplate.inputSchema,
      Legacy.sendEmailWithTemplate.inputSchema,
      Tracking.sendEmailWithTemplate.inputSchema.
    rewrite Hm. repeat split; intros up';
      repeat match goal with
      | |- context [mbind _ ?m] => destruct m; simpl
      end; reflexivity.
Qed.

End TemplateModel.

(** ** Pagination that is supplied *)

Section Supplied.
Context `{rt : Js.Builtins}.

Lemma getOutboundMessages_call raw a up :
  Shared.getOutboundMessages.inputSchema raw = Some a ->
  (Mcp.call Shared.getOutboundMessages.tool raw up).1
  = [Mcp.getOutboundMessages (Shared.getOutboundMessages.filter a)].
Proof.
  intros Ha. unfold Mcp.call. simpl. rewrite Ha. simpl.
  unfold Shared.getOutboundMessages.handler. by rewrite issued_await by auto with runs.
Qed.

(** X10. [count] and [offset] are defaulted one by one and only when they are
    missing: a supplied number is passed as it is, zero included, and the
    other keeps its default. A value that is not a number, or [NaN], is
    refused by validation. *)
Theorem getOutboundMessages_supplied (raw : gmap string jsval) (up : Mcp.Upstream) :
  (forall k, k ∈ ["count"; "offset"] ->
     (exists v, raw !! k = Some v /\ forall x, v = JNum x -> Js.isNaN x = true) ->
     Mcp.call Shared.getOutboundMessages.tool raw up = ([], Mcp.InvalidParams))
  /\ (forall filter,
        (Mcp.call Shared.getOutboundMessages.tool raw up).1
        = [Mcp.getOutboundMessages filter] ->
        (forall c, raw !! "count" = Some (JNum c) -> filter !! "count" = Some (JNum c))
        /\ (raw !! "count" = None -> filter !! "count" = Some (JNum (Js.of_Z 10)))
        /\ (forall f, raw !! "offset" = Some (JNum f) -> filter !! "offset" = Some (JNum f))
        /\ (raw !! "offset" = None -> filter !! "offset" = Some (JNum (Js.of_Z 0))))
  /\ (forall c, raw !! "count" = Some (JNum c) -> Js.isNaN c = false ->
        raw !! "offset" = None ->
        (Mcp.call Shared.getOutboundMessages.tool raw up).1
        = [Mcp.getOutboundMessages {[ "count" := JNum c; "offset" := JNum (Js.of_Z 0) ]}]).
Proof.
  split; [|split].
  - intros k Hk (v & Hv & Hnan). unfold Mcp.call. simpl.
    unfold Shared.getOutboundMessages.inputSchema.
    assert (Hn : z.optional z.number (raw !! k) = None).
    { rewrite Hv. simpl. destruct v; try done. by rewrite (Hnan x eq_refl). }
    rewrite !elem_of_cons, elem_of_nil in Hk. destruct Hk as [-> | [-> | []]].
    + by rewrite Hn.
    + rewrite Hn. by destruct (z.optional z.number (raw !! "count")).
  - intros filter. unfold Mcp.call. simpl.
    destruct (Shared.getOutboundMessages.inputSchema raw) as [a|] eqn:Ha; [|done].
    simpl. unfold Shared.getOutboundMessages.handler.
    rewrite issued_await by auto with runs. simpl. intros [= <-].
    revert Ha. unfold Shared.getOutboundMessages.inputSchema. intros Ha. bind_inv Ha.
    injection Ha as <-. apply optional_number_inv in E, E0.
    unfold Shared.getOutboundMessages.filter.
    cbn [Shared.getOutboundMessages.count Shared.getOutboundMessages.offset].
    rewrite lookup_insert_eq, lookup_insert_ne, lookup_singleton_eq by done.
    repeat split.
    + intros c Hc. rewrite Hc in E. by destruct o as [x|]; [injection E as ->|].
    + intros Hc. rewrite Hc in E. by destruct o.
    + intros f Hf. rewrite Hf in E0. by destruct o0 as [x|]; [injection E0 as ->|].
    + intros Hf. rewrite Hf in E0. by destruct o0.
  - intros c Hc Hnan Ho.
    rewrite (getOutboundMessages_call raw
               {| Shared.getOutboundMessages.count := Some c;
                  Shared.getOutboundMessages.offset := None |}); [done|].
    unfold Shared.getOutboundMessages.inputSchema. rewrite Hc, Ho. simpl.
    by rewrite Hnan.
Qed.

End Supplied.

(** ** Templates *)

Section Templates.
Context `{rt : Js.Builtins}.

Lemma object_literal_cons k v props :
  Js.object_literal ((k, v) :: props)
  = match v with
    | Some x => <[k := x]> (Js.object_literal props)
    | None => Js.object_literal props
    end.
Proof. reflexivity. Qed.

Lemma object_literal_undeclared props k :
  k ∉ props.*1 -> Js.object_literal props !! k = None.
Proof.
  induction props as [|[k' v] props IH]; [done|].
  rewrite fmap_cons, not_elem_of_cons. intros [Hk Hprops]. simpl in Hk.
  rewrite object_literal_cons. destruct v; [rewrite lookup_insert_ne by done|]; auto.
Qed.

Lemma object_literal_first k v props :
  k ∉ props.*1 -> Js.object_literal ((k, v) :: props) !! k = v.
Proof.
  intros Hk. rewrite object_literal_cons. destruct v.
  - by rewrite lookup_insert_eq.
  - by apply object_literal_undeclared.
Qed.

Lemma object_literal_later k k' v props :
  k <> k' -> Js.object_literal ((k', v) :: props) !! k = Js.object_literal props !! k.
Proof.
  intros Hk. rewrite object_literal_cons. destruct v; [|done]. by rewrite lookup_insert_ne.
Qed.

Lemma createTemplate_accepts raw a :
  Shared.createTemplate.inputSchema raw = Some a ->
  raw !! "name" = Some (JStr (Shared.createTemplate.name a))
  /\ raw !! "subject" = Some (JStr (Shared.createTemplate.subject a))
  /\ raw !! "htmlBody" = Some (JStr (Shared.createTemplate.htmlBody a))
  /\ raw !! "textBody" = JStr <$> Shared.createTemplate.textBody a
  /\ raw !! "alias" = JStr <$> Shared.createTemplate.alias a.
Proof.
  unfold Shared.createTemplate.inputSchema. intros Ha. bind_inv Ha. injection Ha as <-.
  apply string_inv in E, E0, E1. apply optional_string_inv in E2, E3. by simpl.
Qed.

(** X11. The template that [createTemplate] hands to the provider: the name,
    the subject and the HTML body as supplied; a [TextBody] always, the empty
    string when the text body is missing or empty; and an [Alias] only when
    one is supplied. *)
Theorem createTemplate_request (raw : gmap string jsval) (up : Mcp.Upstream)
    (template : gmap string jsval) :
  (Mcp.call Shared.createTemplate.tool raw up).1 = [Mcp.createTemplate template] ->
  template !! "Name" = raw !! "name"
  /\ template !! "Subject" = raw !! "subject"
  /\ template !! "HtmlBody" = raw !! "htmlBody"
  /\ (forall s, raw !! "textBody" = Some (JStr s) -> s <> EmptyString ->
        template !! "TextBody" = Some (JStr s))
  /\ (raw !! "textBody" = None \/ raw !! "textBody" = Some (JStr EmptyString) ->
      template !! "TextBody" = Some (JStr EmptyString))
  /\ template !! "Alias" = raw !! "alias".
Proof.
  unfold Mcp.call. simpl.
  destruct (Shared.createTemplate.inputSchema raw) as [a|] eqn:Ha; [|done].
  simpl. unfold Shared.createTemplate.handler. rewrite issued_await by auto with runs.
  simpl. intros [= <-].
  destruct (createTemplate_accepts raw a Ha) as (-> & -> & -> & Htext & ->).
  unfold Shared.createTemplate.template.
  assert (Hbody : Js.object_literal
                    [("Name", Some (JStr (Shared.createTemplate.name a)));
                     ("Subject", Some (JStr (Shared.createTemplate.subject a)));
                     ("HtmlBody", Some (JStr (Shared.createTemplate.htmlBody a)));
                     ("TextBody",
                      Some (JStr (Js.or_string (Shared.createTemplate.textBody a)
                                    EmptyString)));
                     ("Alias", JStr <$> Shared.createTemplate.alias a)] !! "TextBody"
                  = Some (JStr (Js.or_string (Shared.createTemplate.textBody a)
                                  EmptyString))).
  { rewrite !object_literal_later by done. apply object_literal_first. absent. }
  split; [apply object_literal_first; absent|].
  split; [rewrite object_literal_later by done; apply object_literal_first; absent|].
  split; [rewrite !object_literal_later by done; apply object_literal_first; absent|].
  split; [|split].
  - intros s Hs Hne. rewrite Hbody. rewrite Htext in Hs.
    destruct (Shared.createTemplate.textBody a) as [t|]; [|done].
    injection Hs as ->. by rewrite or_string_supplied.
  - intros Hs. rewrite Hbody, or_string_default; [done|]. rewrite Htext in Hs.
    destruct (Shared.createTemplate.textBody a) as [t|]; [|by left].
    right. destruct Hs as [Hs | Hs]; [done|]. by injection Hs as ->.
  - rewrite !object_literal_later by done. apply object_literal_first. absent.
Qed.

Lemma updateTemplate_accepts raw a :
  Shared.updateTemplate.inputSchema raw = Some a ->
  raw !! "templateId" = Some (JNum (Shared.updateTemplate.templateId a))
  /\ raw !! "name" = JStr <$> Shared.updateTemplate.name a
  /\ raw !! "subject" = JStr <$> Shared.updateTemplate.subject a
  /\ raw !! "htmlBody" = JStr <$> Shared.updateTemplate.htmlBody a
  /\ raw !! "textBody" = JStr <$> Shared.updateTemplate.textBody a
  /\ raw !! "alias" = JStr <$> Shared.updateTemplate.alias a.
Proof.
  unfold Shared.updateTemplate.inputSchema. intros Ha. bind_inv Ha. injection Ha as <-.
  apply number_inv in E as [E _]. apply optional_string_inv in E0, E1, E2, E3, E4.
  by simpl.
Qed.

(** X12. [updateTemplate] edits the template of the supplied identifier, and
    the fields it hands to the provider are the supplied ones among [name],
    [subject], [htmlBody], [textBody] and [alias], each unchanged: never the
    identifier, never a key outside the shape, and nothing for a field that
    was not supplied. *)
Theorem updateTemplate_fields (raw : gmap string jsval) (up : Mcp.Upstream)
    (id : Js.number) (fields : gmap string jsval) :
  (Mcp.call Shared.updateTemplate.tool raw up).1 = [Mcp.editTemplate id fields] ->
  raw !! "templateId" = Some (JNum id)
  /\ (forall k, k ∈ template_fields -> fields !! k = raw !! k)
  /\ (forall k, k ∉ template_fields -> fields !! k = None).
Proof.
  unfold Mcp.call. simpl.
  destruct (Shared.updateTemplate.inputSchema raw) as [a|] eqn:Ha; [|done].
  simpl. unfold Shared.updateTemplate.handler. rewrite issued_await by auto with runs.
  simpl. intros [= <- <-].
  destruct (updateTemplate_accepts raw a Ha) as (Hid & Hn & Hs & Hh & Ht & Hal).
  split; [done|]. unfold Shared.updateTemplate.fields, template_fields. split.
  - intros k Hk. rewrite !elem_of_cons, elem_of_nil in Hk.
    destruct Hk as [-> | [-> | [-> | [-> | [-> | []]]]]];
      rewrite ?object_literal_later by done;
      rewrite object_literal_first by absent; done.
  - intros k Hk. by apply object_literal_undeclared.
Qed.

End Templates.

(** A template created without a text body. *)
Lemma createTemplate_request_witness :
  Shared.createTemplate.template
    {| Shared.createTemplate.name := "Welcome"; Shared.createTemplate.subject := "Hello";
       Shared.createTemplate.htmlBody := "<p>Hi</p>";
       Shared.createTemplate.textBody := None; Shared.createTemplate.alias := None |}
  !! "TextBody" = Some (JStr EmptyString)
  /\ Shared.createTemplate.template
       {| Shared.createTemplate.name := "Welcome"; Shared.createTemplate.subject := "Hello";
          Shared.createTemplate.htmlBody := "<p>Hi</p>";
          Shared.createTemplate.textBody := None; Shared.createTemplate.alias := None |}
     !! "Alias" = None.
Proof.
  destruct (createTemplate_request welcome_template sample_upstream
              (Shared.createTemplate.template
                 {| Shared.createTemplate.name := "Welcome";
                    Shared.createTemplate.subject := "Hello";
                    Shared.createTemplate.htmlBody := "<p>Hi</p>";
                    Shared.createTemplate.textBody := None;
                    Shared.createTemplate.alias := None |}))
    as (_ & _ & _ & _ & Htext & Halias).
  - reflexivity.
  - split; [apply Htext; left; reflexivity|exact Halias].
Defined.

(** A change of subject alone. *)
Lemma updateTemplate_fields_witness :
  subject_change !! "templateId" = Some (JNum (Js.of_Z 12345))
  /\ Shared.updateTemplate.fields
       {| Shared.updateTemplate.templateId := Js.of_Z 12345;
          Shared.updateTemplate.name := None;
          Shared.updateTemplate.subject := Some "Hello again";
          Shared.updateTemplate.htmlBody := None;
          Shared.updateTemplate.textBody := None;
          Shared.updateTemplate.alias := None |} !! "subject"
     = subject_change !! "subject".
Proof.
  destruct (updateTemplate_fields subject_change sample_upstream (Js.of_Z 12345)
              (Shared.updateTemplate.fields
                 {| Shared.updateTemplate.templateId := Js.of_Z 12345;
                    Shared.updateTemplate.name := None;
                    Shared.updateTemplate.subject := Some "Hello again";
                    Shared.updateTemplate.htmlBody := None;
                    Shared.updateTemplate.textBody := None;
                    Shared.updateTemplate.alias := None |}))
    as (Hid & Hin & _).
  - reflexivity.
  - split; [exact Hid|]. apply Hin. apply list_elem_of_further, list_elem_of_here.
Defined.

(** ** The address of the statistics *)

Section Address.
Context `{cfg : Config}.

Lemma occurrences_app c s t :
  occurrences c (s +:+ t) = (occurrences c s + occurrences c t)%nat.
Proof. induction s as [|c' s IH]; simpl; [done|]. rewrite IH. lia. Qed.

Lemma append_associative s t u : s +:+ t +:+ u = (s +:+ t) +:+ u.
Proof.
  induction s as [|c s IH]; [done|].
  change (String c (s +:+ t +:+ u) = String c ((s +:+ t) +:+ u)). by rewrite IH.
Qed.

(** An encoded code unit is made of unreserved characters and [%]. *)
Lemma encode_unit_plain c d :
  d ∈ [question; ampersand; equals] -> occurrences d (Js.encode_unit c) = O.
Proof.
  rewrite !elem_of_cons, elem_of_nil. intros [-> | [-> | [-> | []]]];
    destruct c as [[] [] [] [] [] [] [] []]; reflexivity.
Qed.

Lemma encodeURIComponent_plain s d :
  d ∈ [question; ampersand; equals] -> occurrences d (Js.encodeURIComponent s) = O.
Proof.
  intros Hd. induction s as [|c s IH]; simpl; [done|].
  by rewrite occurrences_app, encode_unit_plain, IH.
Qed.

Lemma pushed_written key v :
  length (Tracking.getDeliveryStats.pushed key v) = written v.
Proof. unfold Tracking.getDeliveryStats.pushed, written. by destruct (Js.when_truthy v). Qed.

Lemma query_length params :
  length (Tracking.getDeliveryStats.query params) = filters params.
Proof.
  unfold Tracking.getDeliveryStats.query, filters.
  rewrite !length_app, !pushed_written. lia.
Qed.

Lemma pushed_items key v :
  (forall d, d ∈ [question; ampersand; equals] -> occurrences d key = O) ->
  Forall item (Tracking.getDeliveryStats.pushed key v).
Proof.
  intros Hkey. unfold Tracking.getDeliveryStats.pushed.
  destruct (Js.when_truthy v) as [x|]; [|done]. constructor; [|done].
  unfold item. rewrite !occurrences_app, !Hkey, !encodeURIComponent_plain by set_solver.
  done.
Qed.

Lemma query_items params : Forall item (Tracking.getDeliveryStats.query params).
Proof.
  unfold Tracking.getDeliveryStats.query. rewrite !Forall_app.
  repeat split; apply pushed_items; intros d;
    rewrite !elem_of_cons, elem_of_nil; by intros [-> | [-> | [-> | []]]].
Qed.

Lemma concat_items q :
  Forall item q -> q <> [] ->
  occurrences equals (String.concat "&" q) = length q
  /\ occurrences ampersand (String.concat "&" q) = (length q - 1)%nat
  /\ occurrences question (String.concat "&" q) = O.
Proof.
  induction 1 as [|x q (He & Ha & Hq) Hitems IH]; [done|]. intros _.
  destruct q as [|y q]; [simpl; by rewrite He, Ha, Hq|].
  destruct IH as (IHe & IHa & IHq); [done|].
  change (String.concat "&" (x :: y :: q)) with (x +:+ "&" +:+ String.concat "&" (y :: q)).
  rewrite !occurrences_app, He, Ha, Hq, IHe, IHa, IHq. simpl. lia.
Qed.

(** X13. The address that [getDeliveryStats] fetches is the end point,
    followed by nothing when no filter is supplied or all are empty, and else
    by a query with one [?], one [=] for each filter that is not empty and an
    [&] between two of them: whatever characters the value of a filter holds,
    it adds no parameter and ends none. *)
Theorem stats_address_shape (params : Tracking.getDeliveryStats.args) :
  exists q,
    Tracking.getDeliveryStats.url params
    = "https://api.postmarkapp.com/stats/outbound" +:+ q
    /\ (filters params = O -> q = EmptyString)
    /\ occurrences equals q = filters params
    /\ occurrences ampersand q = (filters params - 1)%nat
    /\ occurrences question q = Nat.min 1 (filters params).
Proof.
  unfold Tracking.getDeliveryStats.url. rewrite <- query_length.
  pose proof (query_items params) as Hitems.
  destruct (Tracking.getDeliveryStats.query params) as [|x q] eqn:Hq.
  - exists EmptyString. by repeat split.
  - eexists. split; [reflexivity|].
    destruct (concat_items (x :: q) Hitems) as (He & Ha & Hn); [done|].
    change (String.concat "&" (x :: q))
      with (match q with [] => x | _ => x +:+ "&" +:+ String.concat "&" q end) in *.
    split; [done|]. rewrite !occurrences_app, He, Ha, Hn. simpl. repeat split; lia.
Qed.

Lemma digit_unreserved c : z.isDigit c = true -> Js.encode_unit c = String c EmptyString.
Proof. destruct c as [[] [] [] [] [] [] [] []]; by try discriminate. Qed.

Lemma dash_unreserved c : z.isDash c = true -> Js.encode_unit c = String c EmptyString.
Proof. destruct c as [[] [] [] [] [] [] [] []]; by try discriminate. Qed.

Lemma date_unescaped d : z.isDate d = true -> Js.encodeURIComponent d = d.
Proof.
  unfold z.isDate.
  repeat (destruct d as [|? d]; try discriminate).
  rewrite !andb_true_iff. intros. destruct_and?.
  simpl Js.encodeURIComponent.
  repeat match goal with
  | H : z.isDigit _ = true |- _ => rewrite (digit_unreserved _ H); clear H
  | H : z.isDash _ = true |- _ => rewrite (dash_unreserved _ H); clear H
  end.
  reflexivity.
Qed.

(** X14. In the revision that checks its dates, a date that validation accepts
    has ten characters and is written into the query as it is: encoding it
    escapes nothing. *)
Theorem guarded_dates_are_written_verbatim (raw : gmap string jsval)
    (params : Tracking.getDeliveryStats.args) (date : string) :
  Guarded.getDeliveryStats.inputSchema raw = Some params ->
  raw !! "fromDate" = Some (JStr date) \/ raw !! "toDate" = Some (JStr date) ->
  String.length date = 10%nat
  /\ (raw !! "fromDate" = Some (JStr date) ->
      "fromdate=" +:+ date ∈ Tracking.getDeliveryStats.query params)
  /\ (raw !! "toDate" = Some (JStr date) ->
      "todate=" +:+ date ∈ Tracking.getDeliveryStats.query params).
Proof.
  unfold Guarded.getDeliveryStats.inputSchema. intros Ha Hraw. bind_inv Ha.
  injection Ha as <-. unfold Tracking.getDeliveryStats.query. simpl.
  assert (Hdate : forall v r, z.optional z.date v = Some r -> v = Some (JStr date) ->
                    r = Some date /\ z.isDate date = true).
  { intros v r Hv ->. revert Hv. unfold z.optional, z.date. simpl.
    destruct (z.isDate date); simpl; [|discriminate]. by intros [= <-]. }
  assert (Hlen : z.isDate date = true -> String.length date = 10%nat).
  { unfold z.isDate. by repeat (destruct date as [|? date]; try discriminate). }
  assert (Hpushed : forall key, z.isDate date = true ->
                      Tracking.getDeliveryStats.pushed key (Some date)
                      = [key +:+ "=" +:+ date]).
  { intros key Hd. unfold Tracking.getDeliveryStats.pushed.
    assert (Js.when_truthy (Some date) = Some date) as ->
      by (pose proof (Hlen Hd); by destruct date).
    by rewrite (date_unescaped _ Hd). }
  split; [|split].
  - destruct Hraw as [Hraw | Hraw].
    + by destruct (Hdate _ _ E0 Hraw) as [_ ?%Hlen].
    + by destruct (Hdate _ _ E1 Hraw) as [_ ?%Hlen].
  - intros Hf. destruct (Hdate _ _ E0 Hf) as [-> Hd]. rewrite (Hpushed _ Hd).
    rewrite !elem_of_app, list_elem_of_singleton. auto.
  - intros Ht. destruct (Hdate _ _ E1 Ht) as [-> Hd]. rewrite (Hpushed _ Hd).
    rewrite !elem_of_app, list_elem_of_singleton. auto.
Qed.

End Address.

(** A tag that holds [&], [=] and [?], a date and an empty stream: two
    filters are written, and the address has two [=], one [&] and one
    [?]. *)
Example stats_address_sample :
  Tracking.getDeliveryStats.url injecting
  = "https://api.postmarkapp.com/stats/outbound?fromdate=2024-01-01&tag=a%26messagestream%3Db%3Fc".
Proof. reflexivity. Qed.

(** A call of the revision that checks its dates, from the first of January
    on. *)
Lemma guarded_dates_are_written_verbatim_witness :
  String.length "2024-01-01" = 10%nat
  /\ "fromdate=2024-01-01" ∈ Tracking.getDeliveryStats.query
                               {| Tracking.getDeliveryStats.tag := None;
                                  Tracking.getDeliveryStats.fromDate := Some "2024-01-01";
                                  Tracking.getDeliveryStats.toDate := None;
                                  Tracking.getDeliveryStats.messageStream := None |}.
Proof.
  destruct (guarded_dates_are_written_verbatim {[ "fromDate" := JStr "2024-01-01" ]}
              {| Tracking.getDeliveryStats.tag := None;
                 Tracking.getDeliveryStats.fromDate := Some "2024-01-01";
                 Tracking.getDeliveryStats.toDate := None;
                 Tracking.getDeliveryStats.messageStream := None |} "2024-01-01")
    as (Hlen & Hfrom & _).
  - reflexivity.
  - left. reflexivity.
  - split; [exact Hlen|]. apply Hfrom. reflexivity.
Defined.

(** ** Statistics that are not there *)

Section Absent.
Context `{cfg : Config} `{rt : Js.Builtins}.

Lemma get_without keys data k :
  without keys data -> k ∈ keys -> Mcp.get k data = mret None.
Proof.
  intros [Hnull Hkeys] Hk. unfold Mcp.get, Js.prop.
  destruct data; try done. by rewrite (Hkeys _ k eq_refl Hk).
Qed.

(** X15. The later [getDeliveryStats] does not look at the status of the
    response: any body that parses and holds none of the five counts, an error
    body of the provider included, is reported as statistics that are all
    zero, with rates of [0.0]. A body that is [null] is reported as the
    [TypeError] of reading [Sent]. *)
Theorem statistics_default_to_zero (params : Tracking.getDeliveryStats.args)
    (up : Mcp.Upstream) (response : Mcp.Response) (data : jsval) :
  up (Mcp.fetch (Tracking.getDeliveryStats.url params) Tracking.getDeliveryStats.headers)
  = inr response ->
  Mcp.json response = inr data ->
  (without count_keys data ->
   Mcp.outcome (Tracking.getDeliveryStats.handler params up)
   = inr {| Mcp.content := [Mcp.text_content no_statistics] |})
  /\ (data = JNull ->
      Mcp.outcome (Tracking.getDeliveryStats.handler params up)
      = inr {| Mcp.content :=
                 [Mcp.text_content
                    ("Error fetching delivery stats: "
                     +:+ Js.Error_toString (Js.null_property "Sent"))] |}).
Proof.
  intros Hup Hjson. unfold Tracking.getDeliveryStats.handler.
  rewrite outcome_try_catch, outcome_await. simpl. rewrite Hup.
  rewrite outcome_await. simpl. rewrite Hjson. split.
  - intros Hdata. unfold Tracking.getDeliveryStats.summary_of.
    rewrite !(get_without count_keys) by (done || absent). reflexivity.
  - intros ->. reflexivity.
Qed.

Lemma add_nan_l x : Js.add S754_nan x = S754_nan.
Proof. by destruct x. Qed.

Lemma add_nan_r x : Js.add x S754_nan = S754_nan.
Proof. by destruct x as [| | |[]]. Qed.

Lemma plus_numbers (a b : option Js.number) :
  Js.plus (JNum <$> a) (JNum <$> b)
  = JNum (Js.add (default S754_nan a) (default S754_nan b)).
Proof. by destruct a, b. Qed.

Lemma total_incomplete (i b d : option Js.number) :
  i = None \/ b = None \/ d = None ->
  Legacy.getDeliveryStats.total (JNum <$> i) (JNum <$> b) (JNum <$> d) = JNum S754_nan.
Proof.
  intros H. unfold Legacy.getDeliveryStats.total. rewrite plus_numbers.
  change (Some (JNum ?x)) with (JNum <$> Some x). rewrite plus_numbers. simpl.
  destruct H as [-> | [-> | ->]]; simpl;
    by rewrite ?add_nan_l, ?add_nan_r, ?add_nan_l.
Qed.

Lemma rate_of_nan c : Legacy.getDeliveryStats.rate c (JNum S754_nan) = None.
Proof.
  unfold Legacy.getDeliveryStats.rate. destruct c; [|done]. simpl.
  by rewrite andb_false_r.
Qed.

(** X16. The [getDeliveryStats] of [postmark-mcp-server.js] throws on a
    response that is not [ok], with the status in the message and without
    reading the body. On a response that is [ok] it needs all of
    [InactiveMails], [BouncedMails] and [DeliveredMails]: when one of them is
    missing, the others being numbers, the total is [NaN] and both rates read
    [N/A], whatever the opens and the bounces. *)
Theorem legacy_statistics_need_every_count (up : Mcp.Upstream) (response : Mcp.Response) :
  up (Mcp.fetch Legacy.getDeliveryStats.url Legacy.getDeliveryStats.headers)
  = inr response ->
  (Mcp.ok response = false ->
   Mcp.call Legacy.getDeliveryStats.tool ∅ up
   = ([Mcp.fetch Legacy.getDeliveryStats.url Legacy.getDeliveryStats.headers],
      Mcp.Rejected
        (Js.new_Error ("Failed to fetch delivery stats: "
                       +:+ Js.NumberToString (Mcp.status response) +:+ " "
                       +:+ Mcp.statusText response))))
  /\ (forall o : gmap string jsval,
        Mcp.ok response = true ->
        Mcp.json response = inr (JObj o) ->
        (forall k, k ∈ total_keys -> o !! k = None \/ exists x, o !! k = Some (JNum x)) ->
        (exists k, k ∈ total_keys /\ o !! k = None) ->
        (Mcp.call Legacy.getDeliveryStats.tool ∅ up).2
        = Mcp.Fulfilled (not_available (JObj o))).
Proof.
  intros Hup. unfold Mcp.call. simpl. unfold Legacy.getDeliveryStats.handler. split.
  - intros Hok. rewrite issued_await, outcome_await.
    + simpl. by rewrite Hup, Hok.
    + intros response'. apply silent_bind; [destruct (Mcp.ok response')|]; auto 10 with runs.
  - intros o Hok Hjson Hnum (k & Hk & Hnone).
    rewrite outcome_await. simpl. rewrite Hup. rewrite outcome_await, Hok. simpl.
    rewrite outcome_await. simpl. rewrite Hjson.
    unfold mbind, Mcp.Eff_bind, Mcp.bind, Mcp.get. simpl. do 2 f_equal.
    assert (Hopt : forall k, k ∈ total_keys -> exists x, o !! k = JNum <$> x).
    { intros k' Hk'. destruct (Hnum k' Hk') as [-> | [x ->]]; [by exists None|by exists (Some x)]. }
    destruct (Hopt "InactiveMails") as [i Hi]; [absent|].
    destruct (Hopt "BouncedMails") as [b Hb]; [absent|].
    destruct (Hopt "DeliveredMails") as [d Hd]; [absent|].
    unfold Legacy.getDeliveryStats.report. rewrite Hi, Hb, Hd.
    rewrite total_incomplete, !rate_of_nan; [done|].
    unfold total_keys in Hk. rewrite !elem_of_cons, elem_of_nil in Hk.
    destruct Hk as [-> | [-> | [-> | []]]].
    + left. rewrite Hi in Hnone. by destruct i.
    + right. left. rewrite Hb in Hnone. by destruct b.
    + right. right. rewrite Hd in Hnone. by destruct d.
Qed.

End Absent.

(** An error body of the provider, reported as no statistics. *)
Lemma statistics_default_to_zero_witness :
  Mcp.outcome (Tracking.getDeliveryStats.handler no_filter
                 (responding false 401 "Unauthorized" sample_error_body))
  = inr {| Mcp.content := [Mcp.text_content no_statistics] |}.
Proof.
  destruct (statistics_default_to_zero no_filter
              (responding false 401 "Unauthorized" sample_error_body)
              {| Mcp.ok := false; Mcp.status := Js.of_Z 401;
                 Mcp.statusText := "Unauthorized"; Mcp.json := inr sample_error_body |}
              sample_error_body) as [Hzero _]; [reflexivity|reflexivity|].
  apply Hzero. split; [discriminate|].
  intros o k [= <-] Hk%list_elem_of_In. simpl in Hk.
  repeat destruct Hk as [<- | Hk]; try reflexivity. destruct Hk.
Defined.

(** The reply of the provider's end point, which counts no delivered
    message. *)
Lemma legacy_statistics_need_every_count_witness :
  (Mcp.call Legacy.getDeliveryStats.tool ∅ (responding true 200 "OK" sample_inactive)).2
  = Mcp.Fulfilled (not_available sample_inactive).
Proof.
  destruct (legacy_statistics_need_every_count (responding true 200 "OK" sample_inactive)
              {| Mcp.ok := true; Mcp.status := Js.of_Z 200; Mcp.statusText := "OK";
                 Mcp.json := inr sample_inactive |}) as [_ Hna]; [reflexivity|].
  apply (Hna {[ "InactiveMails" := JNum (Js.of_Z 192); "Bounces" := JArr [] ]});
    [reflexivity|reflexivity|..].
  - intros k Hk%list_elem_of_In. simpl in Hk.
    destruct Hk as [<- | [<- | [<- | []]]]; [right; by eexists|by left|by left].
  - exists "DeliveredMails". split; [|reflexivity].
    do 2 apply list_elem_of_further. apply list_elem_of_here.
Defined.

(** ** Replies without an identifier *)

Section Replies.
Context `{cfg : Config} `{rt : Js.Builtins} `{fmt : z.Formats}.

Lemma sendEmail_outcome payload (up : Mcp.Upstream) :
  Mcp.outcome
    ((result ← Mcp.await (Mcp.sendEmail payload);
      id ← Mcp.get "MessageID" result;
      Mcp.reply ("Email sent! MessageID: " +:+ Js.interpolate id)) up)
  = match up (Mcp.sendEmail payload) with
    | inl e => inl e
    | inr JNull => inl (Js.null_property "MessageID")
    | inr (JObj o) => inr (sent_as (o !! "MessageID"))
    | inr _ => inr (sent_as None)
    end.
Proof.
  rewrite outcome_await. simpl. destruct (up (Mcp.sendEmail payload)) as [e|[]]; done.
Qed.

(** X17. [sendEmail] reads [MessageID] off whatever the provider answers. When
    the answer has no such property the call is fulfilled all the same, with
    the text [Email sent! MessageID: undefined]. When the answer is [null] the
    read throws: the call is rejected with a [TypeError], except in the
    revision that catches, which reports [Failed to send email: ] with the
    message of that error although the request was issued. *)
Theorem sendEmail_reads_the_reply (a : Tracking.sendEmail.args)
    (b : Legacy.sendEmail.args) (up : Mcp.Upstream) :
  (forall o, up (Mcp.sendEmail (Tracking.sendEmail.payload a)) = inr (JObj o) ->
     Mcp.outcome (Tracking.sendEmail.handler a up) = inr (sent_as (o !! "MessageID"))
     /\ Mcp.outcome (Guarded.sendEmail.handler a up) = inr (sent_as (o !! "MessageID")))
  /\ (forall o, up (Mcp.sendEmail (Legacy.sendEmail.payload b)) = inr (JObj o) ->
        Mcp.outcome (Legacy.sendEmail.handler b up) = inr (sent_as (o !! "MessageID")))
  /\ sent_as None
     = {| Mcp.content := [Mcp.text_content "Email sent! MessageID: undefined"] |}
  /\ (up (Mcp.sendEmail (Tracking.sendEmail.payload a)) = inr JNull ->
      Mcp.outcome (Tracking.sendEmail.handler a up) = inl (Js.null_property "MessageID")
      /\ Mcp.issued (Guarded.sendEmail.handler a up)
         = [Mcp.sendEmail (Tracking.sendEmail.payload a)]
      /\ Mcp.outcome (Guarded.sendEmail.handler a up)
         = inr {| Mcp.content :=
                    [Mcp.text_content
                       ("Failed to send email: "
                        +:+ "Cannot read properties of null (reading 'MessageID')")] |})
  /\ (up (Mcp.sendEmail (Legacy.sendEmail.payload b)) = inr JNull ->
      Mcp.outcome (Legacy.sendEmail.handler b up) = inl (Js.null_property "MessageID")).
Proof.
  unfold Guarded.sendEmail.handler, Tracking.sendEmail.handler, Legacy.sendEmail.handler.
  rewrite outcome_try_catch, issued_try_catch by auto with runs.
  rewrite !sendEmail_outcome. rewrite issued_await by auto with runs.
  split; [|split; [|split; [|split]]].
  - by intros o ->.
  - by intros o ->.
  - reflexivity.
  - by intros ->.
  - by intros ->.
Qed.

End Replies.

(** ** Batches are validated as a whole *)

Section WholeBatches.
Context `{cfg : Config} `{rt : Js.Builtins} `{fmt : z.Formats}.

Lemma array_refuses {A} (sch : z.schema A) l :
  Exists (fun x => sch (Some x) = None) l -> z.array sch (Some (JArr l)) = None.
Proof. intros Hl. simpl. by apply mapM_None_2. Qed.

Lemma array_accepts {A} (sch : z.schema A) l :
  Forall (fun x => is_Some (sch (Some x))) l ->
  exists k, z.array sch (Some (JArr l)) = Some k /\ length k = length l.
Proof.
  intros Hl. destruct (mapM_is_Some_2 (fun x => sch (Some x)) l Hl) as [k Hk].
  exists k. split; [done|]. apply mapM_Some_1 in Hk. symmetry.
  by eapply Forall2_length.
Qed.

(** X18. A batch is validated as a whole: one message that its schema refuses
    makes validation refuse the call, and no message of the batch is sent.
    When every message is accepted, one request carries as many entries as
    there are messages; a list of no message is accepted too, and is sent as a
    batch of no entry. *)
Theorem sendEmailBatch_is_all_or_nothing (raw : gmap string jsval) (l : list jsval)
    (up : Mcp.Upstream) :
  raw !! "messages" = Some (JArr l) ->
  (Exists (fun x => Tracking.sendEmailBatch.messageSchema (Some x) = None) l ->
   refused_call Tracking.sendEmailBatch.tool raw)
  /\ (Forall (fun x => is_Some (Tracking.sendEmailBatch.messageSchema (Some x))) l ->
      exists batch, (Mcp.call Tracking.sendEmailBatch.tool raw up).1
                    = [Mcp.sendEmailBatch batch]
                    /\ length batch = length l)
  /\ (Exists (fun x => z.object Legacy.sendEmail.inputSchema (Some x) = None) l ->
      refused_call Legacy.sendEmailBatch.tool raw)
  /\ (Forall (fun x => is_Some (z.object Legacy.sendEmail.inputSchema (Some x))) l ->
      exists batch, (Mcp.call Legacy.sendEmailBatch.tool raw up).1
                    = [Mcp.sendEmailBatch batch]
                    /\ length batch = length l).
Proof.
  intros Hraw. split; [|split; [|split]].
  - intros Hl up'. unfold Mcp.call.
    change (Mcp.inputSchema Tracking.sendEmailBatch.tool raw)
      with (Tracking.sendEmailBatch.inputSchema raw).
    unfold Tracking.sendEmailBatch.inputSchema.
    by rewrite Hraw, (array_refuses Tracking.sendEmailBatch.messageSchema l Hl).
  - intros Hl.
    destruct (array_accepts Tracking.sendEmailBatch.messageSchema l Hl) as (k & Hk & Hlen).
    unfold Mcp.call.
    change (Mcp.inputSchema Tracking.sendEmailBatch.tool raw)
      with (Tracking.sendEmailBatch.inputSchema raw).
    unfold Tracking.sendEmailBatch.inputSchema. rewrite Hraw, Hk. simpl.
    eexists. unfold Tracking.sendEmailBatch.handler.
    rewrite issued_await by auto with runs. split; [reflexivity|].
    unfold Tracking.sendEmailBatch.batch. by rewrite length_fmap.
  - intros Hl up'. unfold Mcp.call.
    change (Mcp.inputSchema Legacy.sendEmailBatch.tool raw)
      with (Legacy.sendEmailBatch.inputSchema raw).
    unfold Legacy.sendEmailBatch.inputSchema.
    by rewrite Hraw, (array_refuses (z.object Legacy.sendEmail.inputSchema) l Hl).
  - intros Hl.
    destruct (array_accepts (z.object Legacy.sendEmail.inputSchema) l Hl)
      as (k & Hk & Hlen).
    unfold Mcp.call.
    change (Mcp.inputSchema Legacy.sendEmailBatch.tool raw)
      with (Legacy.sendEmailBatch.inputSchema raw).
    unfold Legacy.sendEmailBatch.inputSchema. rewrite Hraw, Hk. simpl.
    eexists. unfold Legacy.sendEmailBatch.handler.
    rewrite issued_await by auto with runs. split; [reflexivity|].
    unfold Legacy.sendEmailBatch.batch. by rewrite length_fmap.
Qed.

End WholeBatches.

(** A batch of no message: one request, with no entry. *)
Lemma sendEmailBatch_is_all_or_nothing_witness :
  exists batch, (Mcp.call Tracking.sendEmailBatch.tool empty_batch sample_upstream).1
                = [Mcp.sendEmailBatch batch]
                /\ length batch = O.
Proof.
  destruct (sendEmailBatch_is_all_or_nothing empty_batch [] sample_upstream)
    as (_ & Hall & _); [reflexivity|].
  apply Hall. constructor.
Defined.

(** ** From one revision to the next *)

Section Revisions.
Context `{cfg : Config} `{rt : Js.Builtins} `{fmt : z.Formats}.

(** X19. The revision with tracking sends what [postmark-mcp-server.js] sends,
    and more: arguments that it accepts are accepted by the older [sendEmail]
    too, and the two requests agree on every property other than [TrackOpens],
    [TrackLinks] and [Tag]. *)
Theorem tracking_request_extends_legacy (raw : gmap string jsval)
    (a : Tracking.sendEmail.args) :
  Tracking.sendEmail.inputSchema raw = Some a ->
  exists b,
    Legacy.sendEmail.inputSchema raw = Some b
    /\ forall k, k ∉ ["TrackOpens"; "TrackLinks"; "Tag"] ->
         Tracking.sendEmail.payload a !! k = Legacy.sendEmail.payload b !! k.
Proof.
  unfold Tracking.sendEmail.inputSchema. intros Ha. bind_inv Ha. injection Ha as <-.
  eexists. split.
  - unfold Legacy.sendEmail.inputSchema. rewrite E, E0, E1, E2, E3. reflexivity.
  - intros k. rewrite !not_elem_of_cons. intros (Ho & Hl & Ht & _).
    rewrite tracking_sendEmail_payload_other by done.
    unfold Legacy.sendEmail.payload. simpl.
    repeat match goal with
    | |- context [<[?i := _]> _ !! k] =>
        destruct (decide (k = i)) as [->|];
          [by rewrite ?lookup_insert_eq, ?lookup_insert_ne by done
          |rewrite (lookup_insert_ne _ i k) by done]
    end.
    rewrite !lookup_singleton_ne by done. reflexivity.
Qed.

End Revisions.

(** The scenario of a single message, with the literals. *)
Lemma tracking_request_extends_legacy_witness :
  exists b,
    Legacy.sendEmail.inputSchema scenario_arguments_tracking = Some b
    /\ Tracking.sendEmail.payload scenario_parsed !! "From"
       = Legacy.sendEmail.payload b !! "From".
Proof.
  destruct (tracking_request_extends_legacy scenario_arguments_tracking scenario_parsed)
    as (b & Hb & Hagree); [reflexivity|].
  exists b. split; [exact Hb|]. apply Hagree.
  rewrite !not_elem_of_cons. repeat split; try discriminate. apply not_elem_of_nil.
Defined.

(** ** Failures that are not caught *)

Section Propagation.
Context `{rt : Js.Builtins} `{fmt : z.Formats} (cfg : Config).

Lemma issued_ret_bind {A B} (a : A) (k : A -> Mcp.Eff B) up :
  Mcp.issued ((mret a ≫= k) up) = Mcp.issued (k a up).
Proof. reflexivity. Qed.

Lemma outcome_ret_bind {A B} (a : A) (k : A -> Mcp.Eff B) up :
  Mcp.outcome ((mret a ≫= k) up) = Mcp.outcome (k a up).
Proof. reflexivity. Qed.

(** X20. A handler without [try] lets the failure of its request through:
    when the request that a call issued fails, the call is rejected with the
    error of the provider, unchanged. This holds for every tool of
    [postmark-mcp-server.js], for the tools of the revision with tracking
    other than [getDeliveryStats], and for [listTemplates] and
    [getOutboundMessages] in the revision that catches. *)
Theorem provider_errors_propagate : Forall (fun nt => propagates nt.2) (uncatching cfg).
Proof.
  unfold uncatching, Legacy.registrations. rewrite !Forall_app, !Forall_cons.
  repeat match goal with |- _ /\ _ => split end; try done.
  all: intros args up r e; unfold Mcp.call; simpl.
  all: try match goal with
       | |- context [match ?s with Some _ => _ | None => _ end] =>
           destruct s as [a|]; [|discriminate]
       end; simpl.
  all: handlers.
  all: try (intros Hr Hup; rewrite issued_await in Hr;
            [simpl in Hr; injection Hr as <-;
             rewrite (outcome_await_failed _ _ _ e); [done|exact Hup]
            |intros; repeat (apply silent_bind; intros);
             try match goal with |- silent (if ?b then _ else _) => destruct b end;
             auto with runs]; fail).
  (* the template message, whose payload may not be identified *)
  unfold Tracking.sendEmailWithTemplate.identified.
  destruct (Js.when_truthy_number _); [|destruct (Js.when_truthy _)]; [| |done].
  all: rewrite issued_ret_bind, outcome_ret_bind.
  all: intros Hr Hup; rewrite issued_await in Hr by auto with runs.
  all: simpl in Hr; injection Hr as <-.
  all: rewrite (outcome_await_failed _ _ _ e); [done|exact Hup].
Qed.

End Propagation.
